(** * Grafana contact point module: a shallow embedding

    The development follows [plugins/modules/grafana_contact_point.py]:
    the payload builder, the [GrafanaContactPointInterface] methods and the
    reconciliation they perform against the provisioning API.

    Python values are embedded as the JSON-shaped values the module handles
    (dictionaries as [gmap string], lists as [list]); exceptions are an
    explicit error type; the HTTP transport ([fetch_url]) is an interface
    over an abstract remote world, so that every statement about one run
    holds for every remote service. *)

From stdpp Require Import gmap strings list fin_maps pretty.
From Stdlib Require Import ZArith Lia.

Local Open Scope Z_scope.
Local Open Scope string_scope.

(** ** Python values *)

(** Values produced by [json.loads] and built by the module.  [JNull] is
    Python's [None].  Numbers are the unbounded integers; floating point
    numbers do not occur in the payloads the module builds and are left out
    of the embedding. *)
#[local] Unset Elimination Schemes.
Inductive json : Type :=
  | JNull
  | JBool (b : bool)
  | JInt (z : Z)
  | JStr (s : string)
  | JList (l : list json)
  | JDict (m : gmap string json).
#[local] Set Elimination Schemes.

Abbreviation dict := (gmap string json).

(** Python's [==] on these values: [True == 1] and [False == 0], containers
    are compared element by element, dictionaries by key set and values. *)
Fixpoint py_eq (a b : json) {struct a} : bool :=
  match a, b with
  | JNull, JNull => true
  | JBool x, JBool y => bool_decide (x = y)
  | JBool x, JInt z | JInt z, JBool x => bool_decide (Z.b2z x = z)
  | JInt x, JInt y => bool_decide (x = y)
  | JStr x, JStr y => bool_decide (x = y)
  | JList l1, JList l2 =>
      (fix go (l1 l2 : list json) {struct l1} : bool :=
         match l1, l2 with
         | [], [] => true
         | x :: l1', y :: l2' => py_eq x y && go l1' l2'
         | _, _ => false
         end) l1 l2
  | JDict m1, JDict m2 =>
      bool_decide (size m1 = size m2) &&
      map_fold (λ k v acc,
        acc && match m2 !! k with Some v' => py_eq v v' | None => false end)
        true m1
  | _, _ => false
  end.

(** Truth value of a value in a condition ([if before:]). *)
Definition truthy (j : json) : bool :=
  match j with
  | JNull => false
  | JBool b => b
  | JInt z => negb (bool_decide (z = 0))
  | JStr s => negb (bool_decide (s = ""))
  | JList l => negb (bool_decide (l = []))
  | JDict m => negb (bool_decide (size m = 0%nat))
  end.

Definition of_opt_str (o : option string) : json :=
  match o with Some s => JStr s | None => JNull end.

Definition of_opt_bool (o : option bool) : json :=
  match o with Some b => JBool b | None => JNull end.

(** [str(x)] as used by [%s] on an optional string: [None] prints as "None". *)
Definition str_opt (o : option string) : string :=
  match o with Some s => s | None => "None" end.

(** The response metadata dictionary [info] returned by [fetch_url]: it
    always holds [status]; [body] is present on HTTP error replies. *)
Record info := MkInfo {
  status : Z;
  msg : string;
  body : option string;
}.

(** ** Exceptions *)

Inductive fmt_arg :=
  | FJson (j : json)
  | FInfo (i : info).

(** [GrafanaAPIException] keeps the format string and the values
    interpolated into it. *)
Inductive exn :=
  | GrafanaAPIException (fmt : string) (args : list fmt_arg)
  | TypeError (what : string)
  | KeyError (key : string)
  | StopIteration
  | AttributeError (what : string)
  | JSONDecodeError (raw : string).

Inductive result (A : Type) :=
  | Ok (a : A)
  | Raise (e : exn).
Arguments Ok {A} a.
Arguments Raise {A} e.

(** [x[key]] with a string key. *)
Definition py_getitem (x : json) (key : string) : result json :=
  match x with
  | JDict m =>
      match m !! key with
      | Some v => Ok v
      | None => Raise (KeyError key)
      end
  | JList _ | JStr _ => Raise (TypeError "indices must be integers")
  | JNull | JBool _ | JInt _ => Raise (TypeError "object is not subscriptable")
  end.

Fixpoint chars (s : string) : list json :=
  match s with
  | EmptyString => []
  | String c s' => JStr (String c EmptyString) :: chars s'
  end.

(** The items a [for] clause draws from a value: a list yields its
    elements, a dictionary its keys, a string its characters. *)
Definition py_iter (x : json) : result (list json) :=
  match x with
  | JList l => Ok l
  | JDict m => Ok (JStr <$> (map_to_list m).*1)
  | JStr s => Ok (chars s)
  | JNull | JBool _ | JInt _ => Raise (TypeError "object is not iterable")
  end.

(** The generator [(x for x in items if x[key] == want)] advanced by
    [next]: the first item that passes the filter, [None] of [option] when
    the generator is exhausted; a failing subscript raises at that item. *)
Fixpoint first_where (key : string) (want : json) (items : list json)
    : result (option json) :=
  match items with
  | [] => Ok None
  | x :: rest =>
      match py_getitem x key with
      | Raise e => Raise e
      | Ok v => if py_eq v want then Ok (Some x) else first_where key want rest
      end
  end.

(** [next(gen, None)] *)
Definition next_default (key : string) (want : json) (items : list json)
    : result json :=
  match first_where key want items with
  | Ok (Some x) => Ok x
  | Ok None => Ok JNull
  | Raise e => Raise e
  end.

(** [next(gen)] *)
Definition next_nodefault (key : string) (want : json) (items : list json)
    : result json :=
  match first_where key want items with
  | Ok (Some x) => Ok x
  | Ok None => Raise StopIteration
  | Raise e => Raise e
  end.

(** ** Module parameters, requests and responses *)

(** [module.params] after argument parsing: every declared key is present,
    optional ones hold [None] when not given. *)
Module params.
Record t := Make {
  url : string;
  grafana_api_key : option string;
  url_username : option string;
  url_password : option string;
  org_id : Z;
  org_name : option string;
  uid : option string;
  name : option string;
  type : option string;
  is_default : bool;
  include_image : bool;
  disable_resolve_message : bool;
  email_addresses : option (list string);
  email_single : option bool;
  state : string;
}.
End params.

Record request := Request {
  req_method : string;
  req_url : string;
  req_headers : gmap string string;
  req_data : option json;   (* the value handed to [json.dumps] *)
}.

(** The reader [r] returned by [fetch_url], seen through
    [json.loads(to_text(r.read()))]. *)
Inductive reader :=
  | NoReader                 (* [r] is [None] *)
  | JsonText (j : json)      (* text that decodes to [j] *)
  | OtherText (raw : string) (* text that does not decode *).

Record response := Response {
  r : reader;
  resp_info : info;
}.

Definition json_loads_read (rd : reader) : result json :=
  match rd with
  | NoReader => Raise (AttributeError "read")
  | JsonText j => Ok j
  | OtherText raw => Raise (JSONDecodeError raw)
  end.

(** What the module takes from its runtime: the remote world reached through
    [fetch_url], and the helpers imported from Ansible. *)
Class Runtime := {
  World : Type;
  fetch_url_step : World → request → response * World;
  basic_auth_header : option string → option string → string;
  clean_url : string → string;
  py_repr : json → string;
}.

(** [str(x)] of a value; containers go through the interpreter's [repr]. *)
Definition py_str `{Runtime} (j : json) : string :=
  match j with
  | JNull => "None"
  | JBool true => "True"
  | JBool false => "False"
  | JInt z => pretty z
  | JStr s => s
  | JList _ | JDict _ => py_repr j
  end.

(** ** The effect monad: remote world, request log, exceptions *)

Section Interface.
Context `{Runtime}.

(** The state threaded through a run: the remote world and the requests
    issued so far, oldest first. *)
Record st := St {
  world : World;
  sent : list request;
}.

Definition M (A : Type) : Type := st → result A * st.

Definition ret {A} (a : A) : M A := λ s, (Ok a, s).
Definition raise {A} (e : exn) : M A := λ s, (Raise e, s).
Definition bind {A B} (c : M A) (k : A → M B) : M B :=
  λ s, match c s with
       | (Ok a, s') => k a s'
       | (Raise e, s') => (Raise e, s')
       end.
Definition lift {A} (x : result A) : M A :=
  match x with Ok a => ret a | Raise e => raise e end.

Notation "'let*' x ':=' c 'in' k" := (bind c (λ x, k))
  (at level 10, x pattern, c at level 100, k at level 200).

(** [fetch_url(module, url, data=..., headers=..., method=...)] *)
Definition fetch_url (rq : request) : M response :=
  λ s, let '(resp, w) := fetch_url_step (world s) rq in
       (Ok resp, {| world := w; sent := sent s ++ [rq] |}).

(** ** Payload builder *)

Definition grafana_contact_point_payload_email
    (data : params.t) (payload : dict) : result dict :=
  match params.email_addresses data with
  | None => Raise (TypeError "can only join an iterable")
  | Some addresses =>
      match payload !! "settings" with
      | Some (JDict settings) =>
          let settings := <["addresses" := JStr (String.concat ";" addresses)]> settings in
          let settings :=
            if truthy (of_opt_bool (params.email_single data))
            then <["singleEmail" := of_opt_bool (params.email_single data)]> settings
            else settings in
          Ok (<["settings" := JDict settings]> payload)
      | Some _ => Raise (TypeError "object does not support item assignment")
      | None => Raise (KeyError "settings")
      end
  end.

Definition grafana_contact_point_payload (data : params.t) : result dict :=
  let payload : dict :=
    {[ "uid" := of_opt_str (params.uid data);
       "name" := of_opt_str (params.name data);
       "type" := of_opt_str (params.type data);
       "isDefault" := JBool (params.is_default data);
       "disableResolveMessage" := JBool (params.disable_resolve_message data);
       "settings" := JDict {[ "uploadImage" := JBool (params.include_image data) ]} ]} in
  if py_eq (of_opt_str (params.type data)) (JStr "email")
  then grafana_contact_point_payload_email data payload
  else Ok payload.

(** ** GrafanaContactPointInterface *)

(** The attributes of [self] the methods read. *)
Record iface := Iface {
  self_org_id : json;
  headers : gmap string string;
}.

Definition contact_points_url (data : params.t) : string :=
  params.url data ++ "/api/v1/provisioning/contact-points".

Definition contact_point_url (data : params.t) : string :=
  params.url data ++ "/api/v1/provisioning/contact-points/"
    ++ str_opt (params.uid data).

Definition grafana_organization_by_name
    (self : iface) (data : params.t) (org_name : string) : M json :=
  let* resp := fetch_url {| req_method := "GET";
                            req_url := params.url data ++ "/api/user/orgs";
                            req_headers := headers self;
                            req_data := None |} in
  let* organizations := lift (json_loads_read (r resp)) in
  let* items := lift (py_iter organizations) in
  let* orga := lift (next_nodefault "name" (JStr org_name) items) in
  if truthy orga then lift (py_getitem orga "orgId")
  else raise (GrafanaAPIException
                "Current user isn't member of organization: %s"
                [FJson (JStr org_name)]).

Definition grafana_switch_organisation
    (self : iface) (data : params.t) (org_id : json) : M unit :=
  let* resp := fetch_url {| req_method := "POST";
                            req_url := params.url data ++ "/api/user/using/"
                                         ++ py_str org_id;
                            req_headers := headers self;
                            req_data := None |} in
  if bool_decide (status (resp_info resp) = 200) then ret tt
  else raise (GrafanaAPIException
                "Unable to switch to organization %s : %s"
                [FJson org_id; FInfo (resp_info resp)]).

(** Positional arguments at a call site. *)
Inductive pyarg :=
  | ArgParams (p : params.t)
  | ArgStr (s : string).

(** Binding positional arguments to the parameters of a method (after
    [self]): a call with too few or too many arguments raises [TypeError]
    before the body runs. *)
Definition bind_positional {A} (names : list string) (args : list pyarg)
    (body : list pyarg → M A) : M A :=
  if bool_decide (length args < length names)%nat
  then raise (TypeError "missing required positional argument")
  else if bool_decide (length names < length args)%nat
  then raise (TypeError "too many positional arguments")
  else body args.

(** A call [self.grafana_organization_by_name(...)] with the given
    positional arguments; the signature is [(self, data, org_name)]. *)
Definition call_grafana_organization_by_name
    (self : iface) (args : list pyarg) : M json :=
  bind_positional ["data"; "org_name"] args (λ bound,
    match bound with
    | [ArgParams data; ArgStr org_name] =>
        grafana_organization_by_name self data org_name
    | _ => raise (TypeError "string indices must be integers")
    end).

(** [GrafanaContactPointInterface.__init__] *)
Definition GrafanaContactPointInterface_init (p : params.t) : M iface :=
  let headers0 : gmap string string :=
    {[ "Content-Type" := "application/json" ]} in
  if truthy (of_opt_str (params.grafana_api_key p)) then
    ret {| self_org_id := JNull;
           headers := <["Authorization" :=
                          "Bearer " ++ str_opt (params.grafana_api_key p)]> headers0 |}
  else
    let headers1 :=
      <["Authorization" :=
          basic_auth_header (params.url_username p) (params.url_password p)]> headers0 in
    let self := {| self_org_id := JNull; headers := headers1 |} in
    let* org :=
      (if truthy (of_opt_str (params.org_name p))
       then call_grafana_organization_by_name self
              [ArgStr (str_opt (params.org_name p))]
       else ret (JInt (params.org_id p))) in
    let self := {| self_org_id := org; headers := headers1 |} in
    let* _ := grafana_switch_organisation self p org in
    ret self.

Definition grafana_create_contact_point
    (self : iface) (data : params.t) (payload : dict) : M dict :=
  let* resp := fetch_url {| req_method := "POST";
                            req_url := contact_points_url data;
                            req_headers := headers self;
                            req_data := Some (JDict payload) |} in
  if bool_decide (status (resp_info resp) = 202) then
    let* contact_point := lift (json_loads_read (r resp)) in
    ret {[ "changed" := JBool true;
           "state" := JStr (params.state data);
           "contact_point" := contact_point ]}
  else raise (GrafanaAPIException "Unable to create contact point: %s"
                [FInfo (resp_info resp)]).

Definition grafana_update_contact_point
    (self : iface) (data : params.t) (payload : dict) (before : json) : M dict :=
  let* resp := fetch_url {| req_method := "PUT";
                            req_url := contact_point_url data;
                            req_headers := headers self;
                            req_data := Some (JDict payload) |} in
  if bool_decide (status (resp_info resp) = 202) then
    let* contact_point := lift (json_loads_read (r resp)) in
    if py_eq before contact_point then ret {[ "changed" := JBool false ]}
    else ret {[ "changed" := JBool true;
                "diff" := JDict {[ "before" := before;
                                   "after" := JDict payload ]};
                "contact_point" := contact_point ]}
  else raise (GrafanaAPIException "Unable to update contact point %s : %s"
                [FJson (of_opt_str (params.uid data)); FInfo (resp_info resp)]).

Definition grafana_delete_contact_point
    (self : iface) (data : params.t) : M dict :=
  let* resp := fetch_url {| req_method := "DELETE";
                            req_url := contact_point_url data;
                            req_headers := headers self;
                            req_data := None |} in
  if bool_decide (status (resp_info resp) = 202) then
    ret {[ "state" := JStr "absent"; "changed" := JBool true ]}
  else if bool_decide (status (resp_info resp) = 404) then
    ret {[ "changed" := JBool false ]}
  else raise (GrafanaAPIException "Unable to delete contact point %s : %s"
                [FJson (of_opt_str (params.uid data)); FInfo (resp_info resp)]).

Definition grafana_handle_contact_point
    (self : iface) (data : params.t) (before : json) : M dict :=
  let* payload := lift (grafana_contact_point_payload data) in
  if bool_decide (params.state data = "present") then
    if truthy before
    then grafana_update_contact_point self data payload before
    else grafana_create_contact_point self data payload
  else
    if truthy before
    then grafana_delete_contact_point self data
    else ret {[ "changed" := JBool false ]}.

Definition grafana_check_contact_point_match
    (self : iface) (data : params.t) : M dict :=
  let* resp := fetch_url {| req_method := "GET";
                            req_url := contact_points_url data;
                            req_headers := headers self;
                            req_data := None |} in
  if bool_decide (status (resp_info resp) = 200) then
    let* contact_points := lift (json_loads_read (r resp)) in
    let* items := lift (py_iter contact_points) in
    let* before := lift (next_default "uid" (of_opt_str (params.uid data)) items) in
    grafana_handle_contact_point self data before
  else raise (GrafanaAPIException "Unable to get contact point %s : %s"
                [FJson (of_opt_str (params.uid data)); FInfo (resp_info resp)]).

(** [main], from the parsed parameters to the keyword arguments handed to
    [module.exit_json]. *)
Definition main (p : params.t) : M dict :=
  let p := {| params.url := clean_url (params.url p);
              params.grafana_api_key := params.grafana_api_key p;
              params.url_username := params.url_username p;
              params.url_password := params.url_password p;
              params.org_id := params.org_id p;
              params.org_name := params.org_name p;
              params.uid := params.uid p;
              params.name := params.name p;
              params.type := params.type p;
              params.is_default := params.is_default p;
              params.include_image := params.include_image p;
              params.disable_resolve_message := params.disable_resolve_message p;
              params.email_addresses := params.email_addresses p;
              params.email_single := params.email_single p;
              params.state := params.state p |} in
  let* grafana_iface := GrafanaContactPointInterface_init p in
  let* result := grafana_check_contact_point_match grafana_iface p in
  match result !! "failed" with
  | Some _ => raise (TypeError "got multiple values for keyword argument")
  | None => ret (<["failed" := JBool false]> result)
  end.

End Interface.

Arguments st {_}.
Arguments M {_} A.

(** ** Concrete runtimes *)

(** A scripted remote: the world is the list of replies still to be given,
    one per request; once exhausted, requests fail at the transport level
    (status -1, no reader).  The Ansible helpers are stand-ins. *)
Module Scripted.
Definition no_reply : response :=
  {| r := NoReader;
     resp_info := {| status := -1; msg := "connection failure"; body := None |} |}.

Definition step (w : list response) (rq : request) : response * list response :=
  match w with
  | [] => (no_reply, [])
  | x :: w' => (x, w')
  end.

Definition runtime : Runtime :=
  {| World := list response;
     fetch_url_step := step;
     basic_auth_header u p := "Basic " ++ str_opt u ++ ":" ++ str_opt p;
     clean_url u := u;
     py_repr _ := "" |}.

Definition reply (code : Z) (rd : reader) : response :=
  {| r := rd; resp_info := {| status := code; msg := ""; body := None |} |}.

Definition start (w : list response) : @st runtime :=
  {| world := (w : @World runtime); sent := [] |}.
End Scripted.

(** A remote store of contact points, for statements about consecutive
    runs.  The store lists what it holds, appends on POST, and replaces or
    removes by [uid] on PUT and DELETE of the item endpoint (404 when no
    entry has that [uid]).  What it keeps of a submitted payload
    ([normalise]) and what it answers to a PUT ([reply_put], applied to the
    entry it now holds) are left to a policy. *)
Module Store.
Record policy := Policy {
  base : string;
  normalise : json → json;
  reply_put : json → json;
}.

Definition collection (pol : policy) : string :=
  base pol ++ "/api/v1/provisioning/contact-points".

Definition item (pol : policy) (u : string) : string :=
  base pol ++ "/api/v1/provisioning/contact-points/" ++ u.

(** The entry is served at the requested item address. *)
Definition at_url (pol : policy) (rq : request) (e : json) : bool :=
  match py_getitem e "uid" with
  | Ok (JStr u) => bool_decide (req_url rq = item pol u)
  | _ => false
  end.

Definition reply (code : Z) (rd : reader) : response :=
  {| r := rd; resp_info := {| status := code; msg := ""; body := None |} |}.

Definition message (text : string) : reader :=
  JsonText (JDict {[ "message" := JStr text ]}).

Definition step (pol : policy) (entries : list json) (rq : request)
    : response * list json :=
  if bool_decide (req_url rq = collection pol) then
    if bool_decide (req_method rq = "GET") then
      (reply 200 (JsonText (JList entries)), entries)
    else if bool_decide (req_method rq = "POST") then
      match req_data rq with
      | Some payload =>
          (reply 202 (JsonText (normalise pol payload)),
           (entries ++ [normalise pol payload])%list)
      | None => (reply 400 (message "bad request"), entries)
      end
    else (reply 405 (message "method not allowed"), entries)
  else if existsb (at_url pol rq) entries then
    if bool_decide (req_method rq = "DELETE") then
      (reply 202 (message "contact point deleted"),
       filter (λ e, at_url pol rq e = false) entries)
    else if bool_decide (req_method rq = "PUT") then
      match req_data rq with
      | Some payload =>
          (reply 202 (JsonText (reply_put pol (normalise pol payload))),
           (λ e, if at_url pol rq e then normalise pol payload else e) <$> entries)
      | None => (reply 400 (message "bad request"), entries)
      end
    else (reply 405 (message "method not allowed"), entries)
  else (reply 404 (message "not found"), entries).

Definition runtime (pol : policy) : Runtime :=
  {| World := list json;
     fetch_url_step := step pol;
     basic_auth_header u p := "Basic " ++ str_opt u ++ ":" ++ str_opt p;
     clean_url u := u;
     py_repr _ := "" |}.

Definition state (pol : policy) (entries : list json) (log : list request)
    : @st (runtime pol) :=
  {| world := (entries : @World (runtime pol)); sent := log |}.

Definition start (pol : policy) (entries : list json) : @st (runtime pol) :=
  state pol entries [].

(** The store keeps payloads as submitted and answers a PUT with the
    entry it holds. *)
Definition faithful (b : string) : policy :=
  {| base := b; normalise := id; reply_put := id |}.

(** The store answers a PUT with a confirmation message only. *)
Definition terse (b : string) : policy :=
  {| base := b;
     normalise := id;
     reply_put _ := JDict {[ "message" := JStr "contact point updated" ]} |}.
End Store.

(** Two consecutive reconciliations, the second starting where the first
    left the remote world. *)
Definition reconcile_twice `{Runtime} (self : iface) (data : params.t)
    : M (dict * dict) :=
  λ s, match grafana_check_contact_point_match self data s with
       | (Ok r1, s1) =>
           match grafana_check_contact_point_match self data s1 with
           | (Ok r2, s2) => (Ok (r1, r2), s2)
           | (Raise e, s2) => (Raise e, s2)
           end
       | (Raise e, s1) => (Raise e, s1)
       end.

(** The parameters of the first example of the module documentation. *)
Definition example_params : params.t :=
  {| params.url := "http://grafana";
     params.grafana_api_key := None;
     params.url_username := Some "admin";
     params.url_password := Some "admin";
     params.org_id := 1;
     params.org_name := None;
     params.uid := Some "email";
     params.name := Some "E-Mail";
     params.type := Some "email";
     params.is_default := false;
     params.include_image := false;
     params.disable_resolve_message := false;
     params.email_addresses := Some ["example@example.com"];
     params.email_single := None;
     params.state := "present" |}.

Definition example_self : iface :=
  {| self_org_id := JInt 1;
     headers := {[ "Content-Type" := "application/json";
                   "Authorization" := "Basic YWRtaW46YWRtaW4=" ]} |}.

Definition with_state (s : string) (p : params.t) : params.t :=
  {| params.url := params.url p;
     params.grafana_api_key := params.grafana_api_key p;
     params.url_username := params.url_username p;
     params.url_password := params.url_password p;
     params.org_id := params.org_id p;
     params.org_name := params.org_name p;
     params.uid := params.uid p;
     params.name := params.name p;
     params.type := params.type p;
     params.is_default := params.is_default p;
     params.include_image := params.include_image p;
     params.disable_resolve_message := params.disable_resolve_message p;
     params.email_addresses := params.email_addresses p;
     params.email_single := params.email_single p;
     params.state := s |}.

(** The [uid] comparison the reconciler applies to one listed entry:
    [None] when the entry has no [uid] to read (the subscript raises). *)
Definition uid_is (want : json) (cp : json) : option bool :=
  match py_getitem cp "uid" with
  | Ok v => Some (py_eq v want)
  | Raise _ => None
  end.

(** The [name] comparison applied to one listed organization. *)
Definition name_is (want : string) (org : json) : option bool :=
  match py_getitem org "name" with
  | Ok v => Some (py_eq v (JStr want))
  | Raise _ => None
  end.

(** A size measure, for induction on values through both containers. *)
Fixpoint json_size (j : json) : nat :=
  match j with
  | JList l => S (foldr (λ x acc, json_size x + acc)%nat 0%nat l)
  | JDict m => S (map_fold (λ _ v acc, json_size v + acc)%nat 0%nat m)
  | _ => 1%nat
  end.

(** The base shape of a payload around its [settings]. *)
Definition base_payload (data : params.t) (settings : dict) : dict :=
  {[ "uid" := of_opt_str (params.uid data);
     "name" := of_opt_str (params.name data);
     "type" := of_opt_str (params.type data);
     "isDefault" := JBool (params.is_default data);
     "disableResolveMessage" := JBool (params.disable_resolve_message data);
     "settings" := JDict settings ]}.

(** The four requests of a reconciliation, as the methods build them. *)
Definition list_request (self : iface) (data : params.t) : request :=
  {| req_method := "GET";
     req_url := params.url data ++ "/api/v1/provisioning/contact-points";
     req_headers := headers self;
     req_data := None |}.

Definition create_request (self : iface) (data : params.t)
    (payload : dict) : request :=
  {| req_method := "POST";
     req_url := params.url data ++ "/api/v1/provisioning/contact-points";
     req_headers := headers self;
     req_data := Some (JDict payload) |}.

Definition update_request (self : iface) (data : params.t)
    (payload : dict) : request :=
  {| req_method := "PUT";
     req_url := params.url data ++ "/api/v1/provisioning/contact-points/"
                  ++ str_opt (params.uid data);
     req_headers := headers self;
     req_data := Some (JDict payload) |}.

Definition delete_request (self : iface) (data : params.t) : request :=
  {| req_method := "DELETE";
     req_url := params.url data ++ "/api/v1/provisioning/contact-points/"
                  ++ str_opt (params.uid data);
     req_headers := headers self;
     req_data := None |}.

Definition orgs_request (self : iface) (data : params.t) : request :=
  {| req_method := "GET";
     req_url := params.url data ++ "/api/user/orgs";
     req_headers := headers self;
     req_data := None |}.

(** The state after a request has been answered. *)
Definition after `{Runtime} (s : st) (rq : request) (w : World) : st :=
  {| world := w; sent := sent s ++ [rq] |}.

(** The payload built from [example_params], and remote entries. *)
Definition example_payload : dict :=
  base_payload example_params
    {[ "uploadImage" := JBool false;
       "addresses" := JStr "example@example.com" ]}.

Definition other_entry : json :=
  JDict {[ "uid" := JStr "slack"; "name" := JStr "E-Mail" ]}.

Definition main_org : json :=
  JDict {[ "orgId" := JInt 1; "name" := JStr "Main Org." ]}.

Definition with_org_name (n : string) (p : params.t) : params.t :=
  {| params.url := params.url p;
     params.grafana_api_key := params.grafana_api_key p;
     params.url_username := params.url_username p;
     params.url_password := params.url_password p;
     params.org_id := params.org_id p;
     params.org_name := Some n;
     params.uid := params.uid p;
     params.name := params.name p;
     params.type := params.type p;
     params.is_default := params.is_default p;
     params.include_image := params.include_image p;
     params.disable_resolve_message := params.disable_resolve_message p;
     params.email_addresses := params.email_addresses p;
     params.email_single := params.email_single p;
     params.state := params.state p |}.

(** Two addresses sent as a single message. *)
Definition single_message_params : params.t :=
  {| params.url := "http://grafana";
     params.grafana_api_key := None;
     params.url_username := Some "admin";
     params.url_password := Some "admin";
     params.org_id := 1;
     params.org_name := None;
     params.uid := Some "email";
     params.name := Some "E-Mail";
     params.type := Some "email";
     params.is_default := false;
     params.include_image := false;
     params.disable_resolve_message := false;
     params.email_addresses := Some ["a@x.com"; "b@x.com"];
     params.email_single := Some true;
     params.state := "present" |}.

(** Scripted runs: a Create, an Update whose reply differs from the
    listed entry, a Delete, and an absent entry left alone. *)
Definition create_run_example : result dict * @st Scripted.runtime :=
  @grafana_check_contact_point_match Scripted.runtime example_self
    example_params
    (Scripted.start [Scripted.reply 200 (JsonText (JList [other_entry]));
                     Scripted.reply 202 (JsonText (JDict example_payload))]).

Definition update_run_example : result dict * @st Scripted.runtime :=
  @grafana_check_contact_point_match Scripted.runtime example_self
    example_params
    (Scripted.start
       [Scripted.reply 200
          (JsonText (JList [JDict {[ "uid" := JStr "email" ]}]));
        Scripted.reply 202 (JsonText (JDict example_payload))]).

Definition delete_run_example : result dict * @st Scripted.runtime :=
  @grafana_check_contact_point_match Scripted.runtime example_self
    (with_state "absent" example_params)
    (Scripted.start
       [Scripted.reply 200 (JsonText (JList [JDict example_payload]));
        Scripted.reply 202 NoReader]).

Definition noop_run_example : result dict * @st Scripted.runtime :=
  @grafana_check_contact_point_match Scripted.runtime example_self
    (with_state "absent" example_params)
    (Scripted.start [Scripted.reply 200 (JsonText (JList [other_entry]))]).

(** What a run reports under a key, [None] when it raised. *)
Definition reported {R : Runtime} (run : result dict * @st R) (key : string)
    : option json :=
  match fst run with
  | Ok res => res !! key
  | Raise _ => None
  end.

Definition methods {R : Runtime} (run : result dict * @st R) : list string :=
  req_method <$> sent (snd run).

(** The request of [grafana_switch_organisation]. *)
Definition switch_request `{Runtime} (self : iface) (data : params.t)
    (org_id : json) : request :=
  {| req_method := "POST";
     req_url := params.url data ++ "/api/user/using/" ++ py_str org_id;
     req_headers := headers self;
     req_data := None |}.

(** [module.params] with its [url] replaced, as [main] does. *)
Definition with_url (u : string) (p : params.t) : params.t :=
  {| params.url := u;
     params.grafana_api_key := params.grafana_api_key p;
     params.url_username := params.url_username p;
     params.url_password := params.url_password p;
     params.org_id := params.org_id p;
     params.org_name := params.org_name p;
     params.uid := params.uid p;
     params.name := params.name p;
     params.type := params.type p;
     params.is_default := params.is_default p;
     params.include_image := params.include_image p;
     params.disable_resolve_message := params.disable_resolve_message p;
     params.email_addresses := params.email_addresses p;
     params.email_single := params.email_single p;
     params.state := params.state p |}.

(** The interface objects the constructor builds on its two ways. *)
Definition bearer_iface (p : params.t) : iface :=
  {| self_org_id := JNull;
     headers := {[ "Content-Type" := "application/json";
                   "Authorization" :=
                     "Bearer " ++ str_opt (params.grafana_api_key p) ]} |}.

Definition basic_headers `{Runtime} (p : params.t) : gmap string string :=
  {[ "Content-Type" := "application/json";
     "Authorization" :=
       basic_auth_header (params.url_username p) (params.url_password p) ]}.

Definition basic_iface `{Runtime} (p : params.t) : iface :=
  {| self_org_id := JInt (params.org_id p); headers := basic_headers p |}.

(** A request carries the two headers of the session. *)
Definition authenticated (rq : request) : Prop :=
  req_headers rq !! "Content-Type" = Some "application/json" ∧
  is_Some (req_headers rq !! "Authorization").

(** A decoded listing that the lookup cannot walk: neither a list nor an
    empty dictionary or string. *)
Definition not_a_listing (j : json) : bool :=
  match j with
  | JList _ => false
  | JDict m => negb (bool_decide (m = ∅))
  | JStr s => negb (bool_decide (s = ""))
  | JNull | JBool _ | JInt _ => true
  end.

(** [example_params] with an API key in place of the password login. *)
Definition api_key_params : params.t :=
  {| params.url := "http://grafana";
     params.grafana_api_key := Some "eyJrIjoi";
     params.url_username := None;
     params.url_password := None;
     params.org_id := 1;
     params.org_name := Some "Main Org.";
     params.uid := Some "email";
     params.name := Some "E-Mail";
     params.type := Some "email";
     params.is_default := false;
     params.include_image := false;
     params.disable_resolve_message := false;
     params.email_addresses := Some ["example@example.com"];
     params.email_single := None;
     params.state := "present" |}.

(** A whole run with the password login: switch, listing, Create. *)
Definition main_run_example : result dict * @st Scripted.runtime :=
  @main Scripted.runtime example_params
    (Scripted.start [Scripted.reply 200 NoReader;
                     Scripted.reply 200 (JsonText (JList [other_entry]));
                     Scripted.reply 202 (JsonText (JDict example_payload))]).

(** An entry the provisioning API would not list: it has no [uid]. *)
Definition nameless_entry : json := JDict {[ "name" := JStr "E-Mail" ]}.

(** Two consecutive reconciliations with their own parameters. *)
Definition reconcile_then `{Runtime} (self : iface) (first second : params.t)
    : M (dict * dict) :=
  λ s, match grafana_check_contact_point_match self first s with
       | (Ok r1, s1) =>
           match grafana_check_contact_point_match self second s1 with
           | (Ok r2, s2) => (Ok (r1, r2), s2)
           | (Raise e, s2) => (Raise e, s2)
           end
       | (Raise e, s1) => (Raise e, s1)
       end.

(** The listed entry carries the [uid] [u]. *)
Definition is_match (u : string) (e : json) : bool :=
  bool_decide (uid_is (JStr u) e = Some true).

(** * Properties *)

(** ** Values *)

Lemma py_eq_str_iff v s : py_eq v (JStr s) = true ↔ v = JStr s.
Proof.
  destruct v; simpl; try (split; [discriminate | congruence]).
  rewrite bool_decide_eq_true. split; congruence.
Qed.

Lemma map_fold_all {A} (g : string → A → bool) (m : gmap string A) :
  map_fold (λ k v acc, acc && g k v) true m = true ↔
  map_Forall (λ k v, g k v = true) m.
Proof.
  induction m as [|k v m Hk IH] using map_ind.
  - rewrite map_fold_empty. split; [intros _; apply map_Forall_empty | done].
  - rewrite map_fold_insert_L; [| |done].
    + rewrite andb_true_iff, IH, map_Forall_insert by done. tauto.
    + intros. rewrite <- !andb_assoc. f_equal. apply andb_comm.
Qed.

Lemma json_size_elem x l : x ∈ l → (json_size x < json_size (JList l))%nat.
Proof.
  simpl. induction 1; simpl in *; lia.
Qed.

Lemma json_size_lookup (m : dict) k v :
  m !! k = Some v → (json_size v < json_size (JDict m))%nat.
Proof.
  intros Hk. simpl.
  rewrite (map_fold_delete_L _ _ k v m); [lia | | done].
  intros. lia.
Qed.

Lemma json_ind (P : json → Prop) :
  P JNull → (∀ b, P (JBool b)) → (∀ z, P (JInt z)) → (∀ s, P (JStr s)) →
  (∀ l, Forall P l → P (JList l)) →
  (∀ m, map_Forall (λ _, P) m → P (JDict m)) →
  ∀ j, P j.
Proof.
  intros Hnull Hbool Hint Hstr Hlist Hdict j.
  remember (json_size j) as n eqn:Hn. revert j Hn.
  induction (lt_wf n) as [n _ IH]. intros j ->.
  destruct j as [| | | |l|m]; auto.
  - apply Hlist, Forall_forall. intros x Hx.
    eapply IH; [|reflexivity]. by apply json_size_elem.
  - apply Hdict. intros k v Hk.
    eapply IH; [|reflexivity]. by eapply json_size_lookup.
Qed.

(** [==] is reflexive on the embedded values. *)
Lemma py_eq_refl j : py_eq j j = true.
Proof.
  induction j as [| b | z | s | l IH | m IH] using json_ind; simpl;
    try done; try (by apply bool_decide_eq_true).
  - induction IH as [|x l Hx _ IHl]; [done|]. by rewrite Hx, IHl.
  - rewrite bool_decide_eq_true_2 by done. simpl.
    apply (map_fold_all (λ k v, match m !! k with
                                 | Some v' => py_eq v v' | None => false end)).
    intros k v Hk. rewrite Hk. by apply (IH k v).
Qed.

(** ** Payload builder *)

Ltac lookup_here :=
  repeat (rewrite lookup_insert_ne by done);
  first [rewrite lookup_insert_eq | rewrite lookup_singleton_eq
        | rewrite lookup_singleton_ne by done | rewrite lookup_empty].

Ltac same_map :=
  apply map_eq; intros ?k;
  repeat (rewrite lookup_insert; case_decide; [done|]);
  rewrite ?lookup_singleton; done.

Lemma payload_email_shape data addresses :
  params.type data = Some "email" →
  params.email_addresses data = Some addresses →
  grafana_contact_point_payload data =
    Ok (base_payload data
          (if truthy (of_opt_bool (params.email_single data))
           then {[ "uploadImage" := JBool (params.include_image data);
                   "addresses" := JStr (String.concat ";" addresses);
                   "singleEmail" := JBool true ]}
           else {[ "uploadImage" := JBool (params.include_image data);
                   "addresses" := JStr (String.concat ";" addresses) ]})).
Proof.
  intros Htype Haddr.
  unfold grafana_contact_point_payload, grafana_contact_point_payload_email.
  rewrite Htype, Haddr. unfold base_payload. rewrite Htype.
  destruct (params.email_single data) as [[]|]; simpl;
    lookup_here; f_equal; apply map_eq; intros k;
    repeat (rewrite lookup_insert; case_decide; [done|]);
    by rewrite ?lookup_singleton.
Qed.

Lemma payload_other_shape data :
  params.type data ≠ Some "email" →
  grafana_contact_point_payload data =
    Ok (base_payload data
          {[ "uploadImage" := JBool (params.include_image data) ]}).
Proof.
  intros Htype. unfold grafana_contact_point_payload.
  destruct (py_eq _ _) eqn:E; [|done].
  apply py_eq_str_iff in E. destruct (params.type data); simplify_eq/=.
Qed.

(** C5. For a desired state of type [email] the payload copies [uid],
    [name], [type], [isDefault] and [disableResolveMessage], carries
    [include_image] as [settings.uploadImage], the addresses joined with
    ";" as [settings.addresses], and [settings.singleEmail] exactly when
    the single-message flag is truthy (the key is absent otherwise). *)
Theorem email_payload_fields data addresses :
  params.type data = Some "email" →
  params.email_addresses data = Some addresses →
  ∃ payload settings,
    grafana_contact_point_payload data = Ok payload ∧
    payload !! "uid" = Some (of_opt_str (params.uid data)) ∧
    payload !! "name" = Some (of_opt_str (params.name data)) ∧
    payload !! "type" = Some (JStr "email") ∧
    payload !! "isDefault" = Some (JBool (params.is_default data)) ∧
    payload !! "disableResolveMessage" =
      Some (JBool (params.disable_resolve_message data)) ∧
    payload !! "settings" = Some (JDict settings) ∧
    settings !! "uploadImage" = Some (JBool (params.include_image data)) ∧
    settings !! "addresses" = Some (JStr (String.concat ";" addresses)) ∧
    settings !! "singleEmail" =
      (if truthy (of_opt_bool (params.email_single data))
       then Some (of_opt_bool (params.email_single data)) else None) ∧
    (∀ k, is_Some (payload !! k) →
       k ∈ ["uid"; "name"; "type"; "isDefault"; "disableResolveMessage";
            "settings"]) ∧
    (∀ k, is_Some (settings !! k) →
       k ∈ ["uploadImage"; "addresses"; "singleEmail"]).
Proof.
  intros Htype Haddr.
  eexists _, _. split; [by apply payload_email_shape|].
  unfold base_payload. rewrite Htype. simpl.
  repeat (split; [by lookup_here|]).
  split; [|split; [|split; [|split]]].
  - destruct (params.email_single data) as [[]|]; simpl; by lookup_here.
  - destruct (params.email_single data) as [[]|]; simpl; by lookup_here.
  - destruct (params.email_single data) as [[]|]; simpl; by lookup_here.
  - intros k. rewrite <- elem_of_dom, !dom_insert_L, dom_singleton_L.
    rewrite !elem_of_union, !elem_of_singleton, !elem_of_cons. tauto.
  - intros k. rewrite <- elem_of_dom.
    destruct (params.email_single data) as [[]|]; simpl;
      rewrite !dom_insert_L, dom_singleton_L;
      rewrite !elem_of_union, !elem_of_singleton, !elem_of_cons; tauto.
Qed.

Example single_message_payload :
  grafana_contact_point_payload single_message_params =
    Ok (base_payload single_message_params
          {[ "uploadImage" := JBool false;
             "addresses" := JStr "a@x.com;b@x.com";
             "singleEmail" := JBool true ]}).
Proof. by rewrite (payload_email_shape _ ["a@x.com"; "b@x.com"]). Qed.

Lemma email_payload_fields_witness :
  ∃ payload settings,
    grafana_contact_point_payload example_params = Ok payload ∧
    payload !! "uid" = Some (JStr "email") ∧
    payload !! "name" = Some (JStr "E-Mail") ∧
    payload !! "type" = Some (JStr "email") ∧
    payload !! "isDefault" = Some (JBool false) ∧
    payload !! "disableResolveMessage" = Some (JBool false) ∧
    payload !! "settings" = Some (JDict settings) ∧
    settings !! "uploadImage" = Some (JBool false) ∧
    settings !! "addresses" = Some (JStr "example@example.com") ∧
    settings !! "singleEmail" = None ∧
    (∀ k, is_Some (payload !! k) →
       k ∈ ["uid"; "name"; "type"; "isDefault"; "disableResolveMessage";
            "settings"]) ∧
    (∀ k, is_Some (settings !! k) →
       k ∈ ["uploadImage"; "addresses"; "singleEmail"]).
Proof.
  apply (email_payload_fields example_params ["example@example.com"]); reflexivity.
Defined.

(** ** One request, one outcome *)

Ltac step_run :=
  unfold bind, fetch_url, lift, ret, raise, after,
    contact_points_url, contact_point_url in *; simpl in *.

Section Requests.
Context `{Runtime}.

Lemma create_run self data payload (s : st) resp w :
  fetch_url_step (world s) (create_request self data payload) = (resp, w) →
  grafana_create_contact_point self data payload s =
    (if bool_decide (status (resp_info resp) = 202) then
       match json_loads_read (r resp) with
       | Ok contact_point =>
           Ok ({[ "changed" := JBool true;
                  "state" := JStr (params.state data);
                  "contact_point" := contact_point ]} : dict)
       | Raise e => Raise e
       end
     else Raise (GrafanaAPIException "Unable to create contact point: %s"
                   [FInfo (resp_info resp)]),
     after s (create_request self data payload) w).
Proof.
  intros Hf. unfold grafana_create_contact_point, create_request in *.
  step_run. rewrite Hf. case_bool_decide; [|done].
  by destruct (json_loads_read (r resp)).
Qed.

Lemma update_run self data payload before (s : st) resp w :
  fetch_url_step (world s) (update_request self data payload) = (resp, w) →
  grafana_update_contact_point self data payload before s =
    (if bool_decide (status (resp_info resp) = 202) then
       match json_loads_read (r resp) with
       | Ok contact_point =>
           Ok (if py_eq before contact_point
               then {[ "changed" := JBool false ]}
               else {[ "changed" := JBool true;
                       "diff" := JDict {[ "before" := before;
                                          "after" := JDict payload ]};
                       "contact_point" := contact_point ]} : dict)
       | Raise e => Raise e
       end
     else Raise (GrafanaAPIException "Unable to update contact point %s : %s"
                   [FJson (of_opt_str (params.uid data));
                    FInfo (resp_info resp)]),
     after s (update_request self data payload) w).
Proof.
  intros Hf. unfold grafana_update_contact_point, update_request in *.
  step_run. rewrite Hf.
  case_bool_decide; [|done].
  destruct (json_loads_read (r resp)); [|done]. by destruct (py_eq _ _).
Qed.

Lemma delete_run self data (s : st) resp w :
  fetch_url_step (world s) (delete_request self data) = (resp, w) →
  grafana_delete_contact_point self data s =
    (if bool_decide (status (resp_info resp) = 202) then
       Ok ({[ "state" := JStr "absent"; "changed" := JBool true ]} : dict)
     else if bool_decide (status (resp_info resp) = 404) then
       Ok {[ "changed" := JBool false ]}
     else Raise (GrafanaAPIException "Unable to delete contact point %s : %s"
                   [FJson (of_opt_str (params.uid data));
                    FInfo (resp_info resp)]),
     after s (delete_request self data) w).
Proof.
  intros Hf. unfold grafana_delete_contact_point, delete_request in *.
  step_run. rewrite Hf.
  by repeat case_bool_decide.
Qed.

Lemma handle_run self data payload before (s : st) :
  grafana_contact_point_payload data = Ok payload →
  grafana_handle_contact_point self data before s =
    if bool_decide (params.state data = "present") then
      if truthy before
      then grafana_update_contact_point self data payload before s
      else grafana_create_contact_point self data payload s
    else
      if truthy before
      then grafana_delete_contact_point self data s
      else (Ok {[ "changed" := JBool false ]}, s).
Proof.
  intros Hp. unfold grafana_handle_contact_point. step_run. rewrite Hp.
  simpl. by repeat case_match.
Qed.

Lemma check_run self data (s : st) resp w :
  fetch_url_step (world s) (list_request self data) = (resp, w) →
  grafana_check_contact_point_match self data s =
    if bool_decide (status (resp_info resp) = 200) then
      match json_loads_read (r resp) with
      | Ok contact_points =>
          match py_iter contact_points with
          | Ok items =>
              match next_default "uid" (of_opt_str (params.uid data)) items with
              | Ok before =>
                  grafana_handle_contact_point self data before
                    (after s (list_request self data) w)
              | Raise e => (Raise e, after s (list_request self data) w)
              end
          | Raise e => (Raise e, after s (list_request self data) w)
          end
      | Raise e => (Raise e, after s (list_request self data) w)
      end
    else (Raise (GrafanaAPIException "Unable to get contact point %s : %s"
                   [FJson (of_opt_str (params.uid data));
                    FInfo (resp_info resp)]),
          after s (list_request self data) w).
Proof.
  intros Hf. unfold grafana_check_contact_point_match, list_request in *.
  step_run. rewrite Hf.
  case_bool_decide; [|done].
  destruct (json_loads_read (r resp)); [|done]. simpl.
  destruct (py_iter _); [|done]. simpl.
  by destruct (next_default _ _ _).
Qed.

(** C6. A Delete sends one DELETE to the item endpoint; status 202 gives
    [changed=true] with [state=absent], status 404 gives [changed=false]
    as a normal result, any other status raises [GrafanaAPIException], and
    only status 202 can report [changed=true]. *)
Theorem delete_outcome self data (s : st) resp w :
  fetch_url_step (world s) (delete_request self data) = (resp, w) →
  let run := grafana_delete_contact_point self data s in
  sent (snd run) = (sent s ++ [delete_request self data])%list ∧
  (status (resp_info resp) = 202 →
     fst run = Ok {[ "state" := JStr "absent"; "changed" := JBool true ]}) ∧
  (status (resp_info resp) = 404 →
     fst run = Ok {[ "changed" := JBool false ]}) ∧
  (status (resp_info resp) ≠ 202 → status (resp_info resp) ≠ 404 →
     fst run = Raise (GrafanaAPIException
                        "Unable to delete contact point %s : %s"
                        [FJson (of_opt_str (params.uid data));
                         FInfo (resp_info resp)])) ∧
  (∀ res, fst run = Ok res → res !! "changed" = Some (JBool true) →
     status (resp_info resp) = 202).
Proof.
  intros Hf run. subst run. rewrite (delete_run _ _ _ _ _ Hf). simpl.
  split; [done|].
  repeat case_bool_decide; repeat split; intros; simplify_eq; try done; lia.
Qed.

(** C4. An Update PUTs the built payload to the item endpoint.  On status
    202 the result is [changed=false] exactly when the snapshot [before]
    equals the decoded response body; otherwise it is [changed=true] with
    [diff.before] the snapshot and [diff.after] the payload that was sent.
    Any other status raises [GrafanaAPIException]. *)
Theorem update_outcome self data payload before (s : st) resp w :
  fetch_url_step (world s) (update_request self data payload) = (resp, w) →
  let run := grafana_update_contact_point self data payload before s in
  sent (snd run) = (sent s ++ [update_request self data payload])%list ∧
  (∀ contact_point,
     status (resp_info resp) = 202 → r resp = JsonText contact_point →
     (py_eq before contact_point = true →
        fst run = Ok {[ "changed" := JBool false ]}) ∧
     (py_eq before contact_point = false →
        fst run = Ok {[ "changed" := JBool true;
                        "diff" := JDict {[ "before" := before;
                                           "after" := JDict payload ]};
                        "contact_point" := contact_point ]}) ∧
     (∀ res, fst run = Ok res →
        (res !! "changed" = Some (JBool false) ↔
         py_eq before contact_point = true))) ∧
  (status (resp_info resp) ≠ 202 →
     fst run = Raise (GrafanaAPIException
                        "Unable to update contact point %s : %s"
                        [FJson (of_opt_str (params.uid data));
                         FInfo (resp_info resp)])).
Proof.
  intros Hf run. subst run. rewrite (update_run _ _ _ _ _ _ _ Hf). simpl.
  split; [done|]. split.
  - intros cp H202 Hr. rewrite bool_decide_eq_true_2, Hr by done. simpl.
    destruct (py_eq before cp); (split; [done|split; [done|]]).
    + by intros res [= <-].
    + intros res [= <-]. split; [|done]. by lookup_here.
  - intros Hne. by rewrite bool_decide_eq_false_2.
Qed.

(** C7. A listing answered with a status other than 200 raises
    [GrafanaAPIException] with the status and body held by [info], after
    the GET alone; a Create answered with a status other than 202 raises
    as well, so neither run returns a result. *)
Theorem unexpected_status_is_fatal self data payload
    (s1 s2 : st) resp1 w1 resp2 w2 :
  fetch_url_step (world s1) (list_request self data) = (resp1, w1) →
  status (resp_info resp1) ≠ 200 →
  fetch_url_step (world s2) (create_request self data payload) = (resp2, w2) →
  status (resp_info resp2) ≠ 202 →
  grafana_check_contact_point_match self data s1 =
    (Raise (GrafanaAPIException "Unable to get contact point %s : %s"
              [FJson (of_opt_str (params.uid data)); FInfo (resp_info resp1)]),
     {| world := w1; sent := (sent s1 ++ [list_request self data])%list |}) ∧
  grafana_create_contact_point self data payload s2 =
    (Raise (GrafanaAPIException "Unable to create contact point: %s"
              [FInfo (resp_info resp2)]),
     {| world := w2; sent := (sent s2 ++ [create_request self data payload])%list |}).
Proof.
  intros Hf1 Hs1 Hf2 Hs2.
  rewrite (check_run _ _ _ _ _ Hf1), (create_run _ _ _ _ _ _ Hf2).
  by rewrite !bool_decide_eq_false_2.
Qed.

End Requests.

(** ** Matching by [uid] *)

Lemma next_default_no_match want cps :
  Forall (λ cp, uid_is want cp = Some false) cps →
  next_default "uid" want cps = Ok JNull.
Proof.
  unfold next_default, uid_is.
  induction 1 as [|cp cps Hcp _ IH]; simpl; [done|].
  destruct (py_getitem cp "uid"); [|done].
  injection Hcp as ->. exact IH.
Qed.

Lemma uid_is_truthy want cp b : uid_is want cp = Some b → truthy cp = true.
Proof.
  unfold uid_is. destruct cp as [| | | | |m]; simpl; try done.
  destruct (m !! "uid") eqn:Hm; [|done]. intros _.
  apply negb_true_iff, bool_decide_eq_false. intros ->%map_size_empty_inv.
  by rewrite lookup_empty in Hm.
Qed.

Lemma next_default_match want cps :
  Forall (λ cp, is_Some (uid_is want cp)) cps →
  Exists (λ cp, uid_is want cp = Some true) cps →
  ∃ before,
    before ∈ cps ∧ uid_is want before = Some true ∧
    next_default "uid" want cps = Ok before ∧ truthy before = true.
Proof.
  unfold next_default.
  induction 1 as [|cp cps [b Hcp] _ IH]; intros Hex;
    [by apply Exists_nil in Hex|].
  simpl. destruct b.
  - exists cp. split; [by left|]. split; [done|].
    split; [|by apply (uid_is_truthy want cp true)].
    unfold uid_is in Hcp. destruct (py_getitem cp "uid") eqn:Hg; [|done].
    by injection Hcp as ->.
  - apply Exists_cons in Hex as [Hex|Hex]; [congruence|].
    destruct (IH Hex) as (before & Hin & Hb & Hn & Ht).
    exists before. split; [by right|]. split; [done|]. split; [|done].
    unfold uid_is in Hcp. destruct (py_getitem cp "uid"); [|done].
    injection Hcp as ->. exact Hn.
Qed.

(** ** The reconciler *)

Section Reconciler.
Context `{Runtime}.

(** The four ways through [grafana_handle_contact_point] after a listing. *)
Lemma reconcile_cases self data payload cps (s : st) resp w :
  fetch_url_step (world s) (list_request self data) = (resp, w) →
  status (resp_info resp) = 200 →
  r resp = JsonText (JList cps) →
  grafana_contact_point_payload data = Ok payload →
  Forall (λ cp, is_Some (uid_is (of_opt_str (params.uid data)) cp)) cps →
  let matching cp := uid_is (of_opt_str (params.uid data)) cp = Some true in
  let listed := after s (list_request self data) w in
  let run := grafana_check_contact_point_match self data s in
  (params.state data = "present" → ¬ Exists matching cps →
     run = grafana_create_contact_point self data payload listed) ∧
  (params.state data = "present" → Exists matching cps →
     ∃ before, before ∈ cps ∧ matching before ∧
       run = grafana_update_contact_point self data payload before listed) ∧
  (params.state data = "absent" → Exists matching cps →
     run = grafana_delete_contact_point self data listed) ∧
  (params.state data = "absent" → ¬ Exists matching cps →
     run = (Ok {[ "changed" := JBool false ]}, listed)).
Proof.
  intros Hf H200 Hr Hp Hwf matching listed run. subst run.
  rewrite (check_run _ _ _ _ _ Hf), bool_decide_eq_true_2, Hr by done.
  simpl. fold listed.
  assert (¬ Exists matching cps →
          next_default "uid" (of_opt_str (params.uid data)) cps = Ok JNull)
    as Hnone.
  { intros Hno. apply next_default_no_match.
    rewrite Forall_forall in Hwf |- *. intros cp Hin.
    destruct (Hwf cp Hin) as [[] Hb]; [|done].
    destruct Hno. apply Exists_exists. by exists cp. }
  repeat split.
  - intros Hst Hno. rewrite (Hnone Hno), (handle_run _ _ payload) by done.
    by rewrite bool_decide_eq_true_2.
  - intros Hst Hex.
    destruct (next_default_match _ _ Hwf Hex) as (before & Hin & Hb & Hn & Ht).
    exists before. split; [done|]. split; [done|].
    rewrite Hn, (handle_run _ _ payload) by done.
    by rewrite bool_decide_eq_true_2, Ht.
  - intros Hst Hex.
    destruct (next_default_match _ _ Hwf Hex) as (before & Hin & Hb & Hn & Ht).
    rewrite Hn, (handle_run _ _ payload) by done.
    rewrite bool_decide_eq_false_2, Ht; [done|]. by rewrite Hst.
  - intros Hst Hno. rewrite (Hnone Hno), (handle_run _ _ payload) by done.
    rewrite bool_decide_eq_false_2; [done|]. by rewrite Hst.
Qed.

(** C1. With the listing fetched, the action depends on the requested
    state and on the match alone: present without a matching entry runs
    Create, present with one runs Update on that entry, absent with one
    runs Delete, and absent without one returns [changed=false] with no
    further request. *)
Theorem decision_table self data payload cps (s : st) resp w :
  fetch_url_step (world s) (list_request self data) = (resp, w) →
  status (resp_info resp) = 200 →
  r resp = JsonText (JList cps) →
  grafana_contact_point_payload data = Ok payload →
  Forall (λ cp, is_Some (uid_is (of_opt_str (params.uid data)) cp)) cps →
  let matching cp := uid_is (of_opt_str (params.uid data)) cp = Some true in
  let listed := after s (list_request self data) w in
  let run := grafana_check_contact_point_match self data s in
  (params.state data = "present" → ¬ Exists matching cps →
     run = grafana_create_contact_point self data payload listed) ∧
  (params.state data = "present" → Exists matching cps →
     ∃ before, before ∈ cps ∧ matching before ∧
       run = grafana_update_contact_point self data payload before listed) ∧
  (params.state data = "absent" → Exists matching cps →
     run = grafana_delete_contact_point self data listed) ∧
  (params.state data = "absent" → ¬ Exists matching cps →
     run = (Ok {[ "changed" := JBool false ]}, listed)).
Proof. apply reconcile_cases. Qed.

(** Every reconciliation that returns a result took one of six ways. *)
Lemma check_ok_cases self data (s : st) res s' :
  grafana_check_contact_point_match self data s = (Ok res, s') →
  ∃ payload before,
    grafana_contact_point_payload data = Ok payload ∧
    ((res = {[ "changed" := JBool false ]} ∧
      last (sent s') = Some (list_request self data)) ∨
     (∃ contact_point,
        res = {[ "changed" := JBool true;
                 "state" := JStr (params.state data);
                 "contact_point" := contact_point ]} ∧
        last (sent s') = Some (create_request self data payload)) ∨
     (res = {[ "changed" := JBool false ]} ∧
      last (sent s') = Some (update_request self data payload)) ∨
     (∃ contact_point,
        res = {[ "changed" := JBool true;
                 "diff" := JDict {[ "before" := before;
                                    "after" := JDict payload ]};
                 "contact_point" := contact_point ]} ∧
        last (sent s') = Some (update_request self data payload)) ∨
     (res = {[ "state" := JStr "absent"; "changed" := JBool true ]} ∧
      last (sent s') = Some (delete_request self data)) ∨
     (res = {[ "changed" := JBool false ]} ∧
      last (sent s') = Some (delete_request self data))).
Proof.
  destruct (fetch_url_step (world s) (list_request self data))
    as [resp w] eqn:Hf.
  rewrite (check_run _ _ _ _ _ Hf).
  case_bool_decide; [|done].
  destruct (json_loads_read (r resp)); [|done].
  destruct (py_iter _); [|done].
  destruct (next_default _ _ _) as [before|]; [|done].
  destruct (grafana_contact_point_payload data) as [payload|e] eqn:Hp;
    [|by unfold grafana_handle_contact_point; step_run; rewrite Hp].
  rewrite (handle_run _ _ payload) by done.
  set (listed := after s (list_request self data) w).
  intros Hrun. exists payload, before. split; [done|].
  case_bool_decide; destruct (truthy before).
  - destruct (fetch_url_step (world listed)
                (update_request self data payload)) as [resp' w'] eqn:Hf'.
    rewrite (update_run _ _ _ _ _ _ _ Hf') in Hrun.
    case_bool_decide; [|done].
    destruct (json_loads_read (r resp')) as [cp|]; [|done].
    injection Hrun as <- <-. unfold after. simpl. rewrite last_snoc.
    destruct (py_eq before cp); eauto 10.
  - destruct (fetch_url_step (world listed)
                (create_request self data payload)) as [resp' w'] eqn:Hf'.
    rewrite (create_run _ _ _ _ _ _ Hf') in Hrun.
    case_bool_decide; [|done].
    destruct (json_loads_read (r resp')) as [cp|]; [|done].
    injection Hrun as <- <-. unfold after. simpl. rewrite last_snoc.
    eauto 10.
  - destruct (fetch_url_step (world listed)
                (delete_request self data)) as [resp' w'] eqn:Hf'.
    rewrite (delete_run _ _ _ _ _ Hf') in Hrun.
    repeat case_bool_decide; try done;
      injection Hrun as <- <-; unfold after; simpl; rewrite last_snoc;
      eauto 10.
  - injection Hrun as <- <-. unfold listed, after. simpl. rewrite last_snoc.
    eauto 10.
Qed.

(** C8 (as the code has it). A result with [changed=true] carries a
    [diff] with [before] and [after] when the action was Update; after a
    Create it carries [state] and [contact_point] and no [diff], and after
    a Delete it is [state=absent] with [changed=true] and no [diff]. *)
Theorem diff_on_update_only self data (s : st) res s' :
  grafana_check_contact_point_match self data s = (Ok res, s') →
  res !! "changed" = Some (JBool true) →
  ∃ payload rq,
    grafana_contact_point_payload data = Ok payload ∧
    last (sent s') = Some rq ∧
    ((rq = update_request self data payload ∧
      ∃ before, res !! "diff" =
                  Some (JDict {[ "before" := before;
                                 "after" := JDict payload ]})) ∨
     (rq = create_request self data payload ∧
      res !! "diff" = None ∧
      res !! "state" = Some (JStr (params.state data)) ∧
      is_Some (res !! "contact_point")) ∨
     (rq = delete_request self data ∧
      res = {[ "state" := JStr "absent"; "changed" := JBool true ]} ∧
      res !! "diff" = None)).
Proof.
  intros Hrun Hc.
  destruct (check_ok_cases _ _ _ _ _ Hrun) as (payload & before & Hp & Hcase).
  exists payload.
  destruct Hcase as [[-> Hl]|[(cp & -> & Hl)|[[-> Hl]|[(cp & -> & Hl)|
                     [[-> Hl]|[-> Hl]]]]]];
    try (by revert Hc; lookup_here).
  - exists (create_request self data payload). do 2 (split; [done|]).
    right; left. split; [done|]. split; [by lookup_here|].
    split; [by lookup_here|]. by lookup_here.
  - exists (update_request self data payload). do 2 (split; [done|]).
    left. split; [done|]. exists before. by lookup_here.
  - exists (delete_request self data). do 2 (split; [done|]).
    right; right. split; [done|]. split; [done|]. by lookup_here.
Qed.

(** C10. A reconciliation that reports [changed=false] returns exactly
    the dictionary with that one key: no [diff], no [contact_point] and no
    [state]. *)
Theorem unchanged_result_is_bare self data (s : st) res s' :
  grafana_check_contact_point_match self data s = (Ok res, s') →
  res !! "changed" = Some (JBool false) →
  res = {[ "changed" := JBool false ]} ∧
  res !! "diff" = None ∧ res !! "contact_point" = None ∧
  res !! "state" = None.
Proof.
  intros Hrun Hc.
  destruct (check_ok_cases _ _ _ _ _ Hrun) as (payload & before & Hp & Hcase).
  destruct Hcase as [[-> Hl]|[(cp & -> & Hl)|[[-> Hl]|[(cp & -> & Hl)|
                     [[-> Hl]|[-> Hl]]]]]];
    try (by revert Hc; lookup_here);
    by (split; [done|]; repeat split; lookup_here).
Qed.

End Reconciler.

(** ** Organization scope *)

Lemma next_nodefault_no_match key want items :
  Forall (λ x, ∃ v, py_getitem x key = Ok v ∧ py_eq v want = false) items →
  next_nodefault key want items = Raise StopIteration.
Proof.
  unfold next_nodefault.
  induction 1 as [|x items (v & Hv & Hne) _ IH]; simpl; [done|].
  by rewrite Hv, Hne.
Qed.

Lemma next_nodefault_first key want pre x post v :
  Forall (λ y, ∃ u, py_getitem y key = Ok u ∧ py_eq u want = false) pre →
  py_getitem x key = Ok v → py_eq v want = true →
  next_nodefault key want (pre ++ x :: post)%list = Ok x.
Proof.
  unfold next_nodefault. intros Hpre Hv Heq.
  induction Hpre as [|y pre (u & Hu & Hne) _ IH]; simpl.
  - by rewrite Hv, Heq.
  - by rewrite Hu, Hne.
Qed.

Section Organization.
Context `{Runtime}.

Lemma organization_by_name_run self data org_name (s : st) resp w :
  fetch_url_step (world s) (orgs_request self data) = (resp, w) →
  grafana_organization_by_name self data org_name s =
    (match json_loads_read (r resp) with
     | Ok organizations =>
         match py_iter organizations with
         | Ok items =>
             match next_nodefault "name" (JStr org_name) items with
             | Ok orga =>
                 if truthy orga then py_getitem orga "orgId"
                 else Raise (GrafanaAPIException
                               "Current user isn't member of organization: %s"
                               [FJson (JStr org_name)])
             | Raise e => Raise e
             end
         | Raise e => Raise e
         end
     | Raise e => Raise e
     end, after s (orgs_request self data) w).
Proof.
  intros Hf. unfold grafana_organization_by_name, orgs_request in *.
  step_run. rewrite Hf.
  destruct (json_loads_read (r resp)); [|done]. simpl.
  destruct (py_iter _); [|done]. simpl.
  destruct (next_nodefault _ _ _) as [orga|]; [|done]. simpl.
  destruct (truthy orga); [|done]. by destruct (py_getitem orga "orgId").
Qed.

(** X6. The lookup returns the [orgId] of the first organization whose
    [name] is the requested one, whatever is listed after it. *)
Lemma organization_by_name_found self data org_name (s : st) resp w
    pre (org : dict) post org_id :
  fetch_url_step (world s) (orgs_request self data) = (resp, w) →
  r resp = JsonText (JList (pre ++ JDict org :: post)) →
  Forall (λ o, name_is org_name o = Some false) pre →
  org !! "name" = Some (JStr org_name) →
  org !! "orgId" = Some org_id →
  grafana_organization_by_name self data org_name s =
    (Ok org_id, after s (orgs_request self data) w).
Proof.
  intros Hf Hr Hpre Hname Hid.
  rewrite (organization_by_name_run _ _ _ _ _ _ Hf), Hr. simpl.
  rewrite (next_nodefault_first _ _ _ _ _ (JStr org_name)).
  - simpl. rewrite Hid.
    destruct (bool_decide (size org = 0%nat)) eqn:E; [|done].
    apply bool_decide_eq_true, map_size_empty_inv in E. subst.
    by rewrite lookup_empty in Hname.
  - eapply Forall_impl; [exact Hpre|]. intros o. unfold name_is.
    destruct (py_getitem o "name") as [v|]; [|done].
    intros [= Hv]. eauto.
  - simpl. by rewrite Hname.
  - apply py_eq_refl.
Qed.

(** C2 (what the code does without a match). When no listed organization
    has the requested name, [next] without a default ends the lookup with
    [StopIteration]; the [GrafanaAPIException] of the method is not
    reached. *)
Theorem organization_by_name_missing self data org_name (s : st) resp w orgs :
  fetch_url_step (world s) (orgs_request self data) = (resp, w) →
  r resp = JsonText (JList orgs) →
  Forall (λ o, name_is org_name o = Some false) orgs →
  grafana_organization_by_name self data org_name s =
    (Raise StopIteration,
     {| world := w; sent := (sent s ++ [orgs_request self data])%list |}).
Proof.
  intros Hf Hr Hno.
  rewrite (organization_by_name_run _ _ _ _ _ _ Hf), Hr. simpl.
  rewrite next_nodefault_no_match; [done|].
  eapply Forall_impl; [exact Hno|]. intros o. unfold name_is.
  destruct (py_getitem o "name") as [v|]; [|done].
  intros [= Hv]. eauto.
Qed.

(** C3. With basic authentication and an organization name, the
    constructor calls [grafana_organization_by_name] with one positional
    argument for its two parameters: the call raises [TypeError] before
    its body runs, so the constructor and [main] end there with no request
    issued. *)
Theorem init_with_org_name_raises p org_name (s : st) :
  truthy (of_opt_str (params.grafana_api_key p)) = false →
  params.org_name p = Some org_name → org_name ≠ "" →
  GrafanaContactPointInterface_init p s =
    (Raise (TypeError "missing required positional argument"), s) ∧
  main p s = (Raise (TypeError "missing required positional argument"), s).
Proof.
  intros Hkey Hname Hne.
  assert (∀ q, params.grafana_api_key q = params.grafana_api_key p →
               params.org_name q = params.org_name p →
               GrafanaContactPointInterface_init q s =
                 (Raise (TypeError "missing required positional argument"), s))
    as Hinit.
  { intros q Hq1 Hq2. unfold GrafanaContactPointInterface_init.
    rewrite Hq1, Hq2, Hkey, Hname. simpl.
    rewrite bool_decide_eq_false_2 by done. simpl.
    by unfold call_grafana_organization_by_name, bind_positional, bind, raise. }
  split; [by apply Hinit|].
  unfold main, bind. by rewrite Hinit.
Qed.

End Organization.

(** ** Consecutive runs against a store *)

Section StoreRuns.
Variable pol : Store.policy.

Lemma item_not_collection u : Store.item pol u ≠ Store.collection pol.
Proof.
  unfold Store.item, Store.collection. intros Heq.
  apply (inj (String.app (Store.base pol))) in Heq. discriminate Heq.
Qed.

Lemma item_inj u1 u2 : Store.item pol u1 = Store.item pol u2 → u1 = u2.
Proof.
  unfold Store.item. intros Heq.
  apply (inj (String.app (Store.base pol))) in Heq.
  by apply (inj (String.app "/api/v1/provisioning/contact-points/")) in Heq.
Qed.

Lemma at_url_is_match rq u e :
  req_url rq = Store.item pol u → Store.at_url pol rq e = is_match u e.
Proof.
  intros Hrq. unfold Store.at_url, is_match, uid_is. rewrite Hrq.
  destruct (py_getitem e "uid") as [v|]; [|done].
  destruct (py_eq v (JStr u)) eqn:E.
  - apply py_eq_str_iff in E as ->. by rewrite !bool_decide_eq_true_2.
  - rewrite (bool_decide_eq_false_2 (Some false = Some true)) by done.
    destruct v; try done. apply bool_decide_eq_false. intros ->%item_inj.
    by rewrite py_eq_refl in E.
Qed.

Lemma existsb_at_url rq u entries :
  req_url rq = Store.item pol u →
  existsb (Store.at_url pol rq) entries = existsb (is_match u) entries.
Proof.
  intros Hrq. induction entries as [|e entries IH]; simpl; [done|].
  by rewrite IH, (at_url_is_match _ u).
Qed.

Lemma existsb_is_match u entries :
  existsb (is_match u) entries = true ↔
  Exists (λ e, uid_is (JStr u) e = Some true) entries.
Proof.
  rewrite existsb_exists, Exists_exists. unfold is_match.
  split; intros (e & Hin & He); exists e.
  - apply list_elem_of_In in Hin. by apply bool_decide_eq_true in He.
  - apply list_elem_of_In in Hin. split; [done|].
    by apply bool_decide_eq_true.
Qed.

Variables (self : iface) (data : params.t) (u : string).
Hypothesis Hurl : params.url data = Store.base pol.
Hypothesis Huid : params.uid data = Some u.

Let kept (payload : dict) : json := Store.normalise pol (JDict payload).

Lemma update_request_url payload :
  req_url (update_request self data payload) = Store.item pol u.
Proof. unfold update_request, Store.item. simpl. by rewrite Hurl, Huid. Qed.

Lemma delete_request_url :
  req_url (delete_request self data) = Store.item pol u.
Proof. unfold delete_request, Store.item. simpl. by rewrite Hurl, Huid. Qed.

Lemma store_list entries :
  Store.step pol entries (list_request self data) =
    (Store.reply 200 (JsonText (JList entries)), entries).
Proof.
  unfold Store.step, list_request, Store.collection. simpl. rewrite Hurl.
  by rewrite bool_decide_eq_true_2.
Qed.

Lemma store_create entries payload :
  Store.step pol entries (create_request self data payload) =
    (Store.reply 202 (JsonText (kept payload)),
     (entries ++ [kept payload])%list).
Proof.
  unfold Store.step, create_request, Store.collection. simpl. rewrite Hurl.
  by rewrite bool_decide_eq_true_2.
Qed.

Lemma store_update entries payload :
  Store.step pol entries (update_request self data payload) =
    if existsb (is_match u) entries then
      (Store.reply 202 (JsonText (Store.reply_put pol (kept payload))),
       (λ e, if is_match u e then kept payload else e) <$> entries)
    else (Store.reply 404 (Store.message "not found"), entries).
Proof.
  unfold Store.step.
  rewrite (existsb_at_url _ u) by apply update_request_url.
  rewrite bool_decide_eq_false_2
    by (rewrite update_request_url; apply item_not_collection).
  destruct (existsb _ _); [|done]. simpl. f_equal.
  apply list_fmap_ext. intros _ e _.
  by rewrite (at_url_is_match _ u) by apply update_request_url.
Qed.

Lemma store_delete entries :
  Store.step pol entries (delete_request self data) =
    if existsb (is_match u) entries then
      (Store.reply 202 (Store.message "contact point deleted"),
       filter (λ e, is_match u e = false) entries)
    else (Store.reply 404 (Store.message "not found"), entries).
Proof.
  unfold Store.step.
  rewrite (existsb_at_url _ u) by apply delete_request_url.
  rewrite bool_decide_eq_false_2
    by (rewrite delete_request_url; apply item_not_collection).
  destruct (existsb _ _); [|done]. simpl. f_equal.
  apply list_filter_iff. intros e.
  by rewrite (at_url_is_match _ u) by apply delete_request_url.
Qed.

(** What the store holds after a Delete, a Create and an Update. *)
Lemma no_match_after_delete entries :
  Forall (λ e, is_Some (uid_is (JStr u) e)) entries →
  Forall (λ e, uid_is (JStr u) e = Some false)
    (filter (λ e, is_match u e = false) entries).
Proof.
  intros Hwf. apply Forall_forall. intros e [He Hin]%list_elem_of_filter.
  rewrite Forall_forall in Hwf. destruct (Hwf e Hin) as [[] Hb]; [|done].
  unfold is_match in He. by rewrite bool_decide_eq_true_2 in He.
Qed.

Lemma no_match_when_absent entries :
  Forall (λ e, is_Some (uid_is (JStr u) e)) entries →
  existsb (is_match u) entries = false →
  Forall (λ e, uid_is (JStr u) e = Some false) entries.
Proof.
  intros Hwf Hno. apply Forall_forall. intros e Hin.
  rewrite Forall_forall in Hwf. destruct (Hwf e Hin) as [[] Hb]; [|done].
  assert (existsb (is_match u) entries = true) as Hex; [|congruence].
  apply existsb_is_match, Exists_exists. eauto.
Qed.

Lemma next_after_create entries e :
  Forall (λ x, uid_is (JStr u) x = Some false) entries →
  uid_is (JStr u) e = Some true →
  next_default "uid" (JStr u) (entries ++ [e]) = Ok e.
Proof.
  unfold next_default, uid_is. intros Hno He.
  induction Hno as [|x entries Hx _ IH]; simpl.
  - destruct (py_getitem e "uid"); [|done].
    injection He as He. by rewrite He.
  - destruct (py_getitem x "uid"); [|done].
    injection Hx as Hx. by rewrite Hx.
Qed.

Lemma next_after_update entries e :
  Forall (λ x, is_Some (uid_is (JStr u) x)) entries →
  existsb (is_match u) entries = true →
  uid_is (JStr u) e = Some true →
  next_default "uid" (JStr u)
    ((λ x, if is_match u x then e else x) <$> entries) = Ok e.
Proof.
  unfold next_default. intros Hwf Hex He.
  induction Hwf as [|x entries [b Hx] _ IH]; [done|].
  rewrite fmap_cons. simpl in Hex.
  destruct (is_match u x) eqn:Hm; simpl.
  - unfold uid_is in He. destruct (py_getitem e "uid"); [|done].
    injection He as He. by rewrite He.
  - unfold is_match in Hm. apply bool_decide_eq_false in Hm.
    destruct b; [done|]. unfold uid_is in Hx.
    destruct (py_getitem x "uid"); [|done].
    injection Hx as Hx. rewrite Hx. by apply IH.
Qed.

Lemma existsb_after_create entries e :
  uid_is (JStr u) e = Some true →
  existsb (is_match u) (entries ++ [e]) = true.
Proof.
  intros He. rewrite existsb_app. simpl. unfold is_match at 2.
  rewrite bool_decide_eq_true_2 by done. by rewrite orb_true_r.
Qed.

Lemma existsb_after_update entries e :
  existsb (is_match u) entries = true →
  uid_is (JStr u) e = Some true →
  existsb (is_match u)
    ((λ x, if is_match u x then e else x) <$> entries) = true.
Proof.
  intros Hex He. induction entries as [|x entries IH]; simpl in *; [done|].
  destruct (is_match u x) eqn:Hx; simpl in *.
  - unfold is_match at 1. by rewrite bool_decide_eq_true_2.
  - rewrite Hx. simpl. by apply IH.
Qed.

Abbreviation run_on entries log :=
  (@grafana_check_contact_point_match (Store.runtime pol) self data
     (Store.state pol entries log)).

Lemma store_run_absent entries log payload :
  params.state data ≠ "present" →
  grafana_contact_point_payload data = Ok payload →
  Forall (λ e, is_Some (uid_is (JStr u) e)) entries →
  run_on entries log =
    if existsb (is_match u) entries then
      (Ok {[ "state" := JStr "absent"; "changed" := JBool true ]},
       Store.state pol (filter (λ e, is_match u e = false) entries)
         ((log ++ [list_request self data]) ++ [delete_request self data])%list)
    else
      (Ok {[ "changed" := JBool false ]},
       Store.state pol entries (log ++ [list_request self data])%list).
Proof.
  intros Hst Hp Hwf.
  rewrite (@check_run (Store.runtime pol) self data
             (Store.state pol entries log) _ _ (store_list entries)).
  simpl. rewrite Huid. simpl.
  destruct (existsb (is_match u) entries) eqn:Hex.
  - destruct (next_default_match (JStr u) entries Hwf) as (b & _ & _ & -> & Ht);
      [by apply existsb_is_match|].
    rewrite (@handle_run (Store.runtime pol) _ _ payload) by done.
    rewrite bool_decide_eq_false_2, Ht by done.
    pose proof (store_delete entries) as Hd. rewrite Hex in Hd.
    etrans; [eapply (@delete_run (Store.runtime pol)); exact Hd|done].
  - rewrite next_default_no_match by by apply no_match_when_absent.
    rewrite (@handle_run (Store.runtime pol) _ _ payload) by done.
    by rewrite bool_decide_eq_false_2.
Qed.

Lemma store_run_create entries log payload :
  params.state data = "present" →
  grafana_contact_point_payload data = Ok payload →
  Forall (λ e, is_Some (uid_is (JStr u) e)) entries →
  existsb (is_match u) entries = false →
  run_on entries log =
    (Ok {[ "changed" := JBool true;
           "state" := JStr "present";
           "contact_point" := kept payload ]},
     Store.state pol (entries ++ [kept payload])%list
       ((log ++ [list_request self data])
          ++ [create_request self data payload])%list).
Proof.
  intros Hst Hp Hwf Hex.
  rewrite (@check_run (Store.runtime pol) self data
             (Store.state pol entries log) _ _ (store_list entries)).
  simpl. rewrite Huid. simpl.
  rewrite next_default_no_match by by apply no_match_when_absent.
  rewrite (@handle_run (Store.runtime pol) _ _ payload) by done.
  rewrite bool_decide_eq_true_2 by done. simpl.
  etrans; [eapply (@create_run (Store.runtime pol));
           exact (store_create entries payload)|].
  simpl. by rewrite Hst.
Qed.

Lemma store_run_update entries log payload before :
  params.state data = "present" →
  grafana_contact_point_payload data = Ok payload →
  existsb (is_match u) entries = true →
  next_default "uid" (JStr u) entries = Ok before →
  truthy before = true →
  run_on entries log =
    (Ok (if py_eq before (Store.reply_put pol (kept payload))
         then {[ "changed" := JBool false ]}
         else {[ "changed" := JBool true;
                 "diff" := JDict {[ "before" := before;
                                    "after" := JDict payload ]};
                 "contact_point" := Store.reply_put pol (kept payload) ]}),
     Store.state pol
       ((λ e, if is_match u e then kept payload else e) <$> entries)
       ((log ++ [list_request self data])
          ++ [update_request self data payload])%list).
Proof.
  intros Hst Hp Hex Hn Ht.
  rewrite (@check_run (Store.runtime pol) self data
             (Store.state pol entries log) _ _ (store_list entries)).
  simpl. rewrite Huid. simpl. rewrite Hn.
  rewrite (@handle_run (Store.runtime pol) _ _ payload) by done.
  rewrite bool_decide_eq_true_2, Ht by done.
  pose proof (store_update entries payload) as Hu. rewrite Hex in Hu.
  etrans; [eapply (@update_run (Store.runtime pol)); exact Hu|done].
Qed.

(** C9 (as the code has it). Two runs in a row against a store whose
    entries all carry a [uid].  With state absent the second run returns
    [changed=false], whatever the first did.  With state present, when the
    store keeps the [uid] of what it is sent, the second run is an Update,
    after a Create as after an Update, and it returns [changed=false]
    exactly when the reply to its PUT equals the entry the store held. *)
Theorem rerun_against_store entries payload :
  grafana_contact_point_payload data = Ok payload →
  Forall (λ e, is_Some (uid_is (JStr u) e)) entries →
  let twice :=
    @reconcile_twice (Store.runtime pol) self data (Store.start pol entries) in
  let stored := Store.normalise pol (JDict payload) in
  (params.state data = "absent" →
     ∃ r1 s2,
       twice = (Ok (r1, {[ "changed" := JBool false ]}), s2) ∧
       (r1 = {[ "changed" := JBool false ]} ∨
        r1 = {[ "state" := JStr "absent"; "changed" := JBool true ]})) ∧
  (params.state data = "present" →
     uid_is (JStr u) stored = Some true →
     ∃ r1 r2 s2,
       twice = (Ok (r1, r2), s2) ∧
       last (sent s2) = Some (update_request self data payload) ∧
       r2 = (if py_eq stored (Store.reply_put pol stored)
             then {[ "changed" := JBool false ]}
             else {[ "changed" := JBool true;
                     "diff" := JDict {[ "before" := stored;
                                        "after" := JDict payload ]};
                     "contact_point" := Store.reply_put pol stored ]}) ∧
       (r2 !! "changed" = Some (JBool false) ↔
        py_eq stored (Store.reply_put pol stored) = true)).
Proof.
  intros Hp Hwf twice stored. subst twice.
  unfold reconcile_twice, Store.start. split.
  - intros Hst.
    assert (params.state data ≠ "present") as Hne by by rewrite Hst.
    rewrite (store_run_absent _ _ payload) by done.
    destruct (existsb (is_match u) entries) eqn:Hex.
    + rewrite (store_run_absent _ _ payload); [|done|done|].
      * destruct (existsb _ (filter _ _)) eqn:Hex'; [exfalso|by eauto].
        apply existsb_is_match, Exists_exists in Hex'.
        destruct Hex' as (e & Hin & He).
        pose proof (no_match_after_delete entries Hwf) as Hno.
        rewrite Forall_forall in Hno. specialize (Hno e Hin). congruence.
      * eapply Forall_impl; [by apply no_match_after_delete|].
        intros e ->. eauto.
    + rewrite (store_run_absent _ _ payload) by done. rewrite Hex. eauto.
  - intros Hst Hkeep.
    assert (truthy stored = true) as Ht by by eapply uid_is_truthy.
    assert (∀ r2 : dict,
      r2 = (if py_eq stored (Store.reply_put pol stored)
            then {[ "changed" := JBool false ]}
            else {[ "changed" := JBool true;
                    "diff" := JDict {[ "before" := stored;
                                       "after" := JDict payload ]};
                    "contact_point" := Store.reply_put pol stored ]}) →
      r2 !! "changed" = Some (JBool false) ↔
      py_eq stored (Store.reply_put pol stored) = true) as Hiff.
    { intros r2 ->. destruct (py_eq _ _); [done|].
      split; [|done]. by lookup_here. }
    destruct (existsb (is_match u) entries) eqn:Hex.
    + destruct (next_default_match (JStr u) entries Hwf)
        as (b & _ & _ & Hn & Hb); [by apply existsb_is_match|].
      rewrite (store_run_update _ _ payload b) by done.
      rewrite (store_run_update _ _ payload stored);
        [|done|done|by apply existsb_after_update
         |by apply next_after_update|done].
      do 3 eexists. split; [done|]. split; [done|]. split; [done|].
      by apply Hiff.
    + rewrite (store_run_create _ _ payload) by done.
      rewrite (store_run_update _ _ payload stored);
        [|done|done|by apply existsb_after_create
         |by apply next_after_create; [apply no_match_when_absent|]|done].
      do 3 eexists. split; [done|]. split; [done|]. split; [done|].
      by apply Hiff.
Qed.

End StoreRuns.

(** ** The statements at concrete inputs *)

Lemma example_payload_ok :
  grafana_contact_point_payload example_params = Ok example_payload.
Proof. by rewrite (payload_email_shape _ ["example@example.com"]). Qed.

Lemma example_payload_absent_ok :
  grafana_contact_point_payload (with_state "absent" example_params) =
    Ok example_payload.
Proof. by rewrite (payload_email_shape _ ["example@example.com"]). Qed.

(** Present, and the listing holds only an entry with another [uid] (and
    the same name): the run is a Create. *)
Lemma decision_table_witness :
  @grafana_check_contact_point_match Scripted.runtime example_self
    example_params
    (Scripted.start [Scripted.reply 200 (JsonText (JList [other_entry]));
                     Scripted.reply 202 (JsonText (JDict example_payload))]) =
  @grafana_create_contact_point Scripted.runtime example_self example_params
    example_payload
    {| world := ([Scripted.reply 202 (JsonText (JDict example_payload))]
                 : @World Scripted.runtime);
       sent := [list_request example_self example_params] |}.
Proof.
  refine (proj1 (@decision_table Scripted.runtime example_self example_params
            example_payload [other_entry]
            (Scripted.start [Scripted.reply 200 (JsonText (JList [other_entry]));
                             Scripted.reply 202 (JsonText (JDict example_payload))])
            _ _ eq_refl eq_refl eq_refl example_payload_ok _) eq_refl _).
  - repeat constructor. by exists false.
  - rewrite Exists_cons, Exists_nil. by intros [?|[]].
Defined.

(** The only listed organization has another name. *)
Lemma organization_by_name_missing_witness :
  @grafana_organization_by_name Scripted.runtime example_self example_params
    "Other" (Scripted.start [Scripted.reply 200 (JsonText (JList [main_org]))]) =
  (Raise StopIteration,
   {| world := ([] : @World Scripted.runtime);
      sent := [orgs_request example_self example_params] |}).
Proof.
  apply (@organization_by_name_missing Scripted.runtime example_self
           example_params "Other"
           (Scripted.start [Scripted.reply 200 (JsonText (JList [main_org]))])
           _ _ [main_org] eq_refl eq_refl).
  repeat constructor.
Defined.

(** Basic authentication with [org_name] set. *)
Lemma init_with_org_name_raises_witness :
  @GrafanaContactPointInterface_init Scripted.runtime
    (with_org_name "Main Org." example_params)
    (Scripted.start [Scripted.reply 200 (JsonText (JList [main_org]))]) =
  (Raise (TypeError "missing required positional argument"),
   Scripted.start [Scripted.reply 200 (JsonText (JList [main_org]))]).
Proof.
  apply (@init_with_org_name_raises Scripted.runtime
           (with_org_name "Main Org." example_params) "Main Org.");
    [reflexivity | reflexivity | discriminate].
Defined.

(** The reply to the PUT is the entry that was listed. *)
Lemma update_outcome_witness :
  fst (@grafana_update_contact_point Scripted.runtime example_self
         example_params example_payload (JDict example_payload)
         (Scripted.start [Scripted.reply 202 (JsonText (JDict example_payload))]))
  = Ok {[ "changed" := JBool false ]}.
Proof.
  refine (proj1 (proj1 (proj2 (@update_outcome Scripted.runtime example_self
            example_params example_payload (JDict example_payload)
            (Scripted.start
               [Scripted.reply 202 (JsonText (JDict example_payload))])
            _ _ eq_refl))
          (JDict example_payload) eq_refl eq_refl) _).
  apply py_eq_refl.
Defined.

(** The entry is already gone when the DELETE arrives. *)
Lemma delete_outcome_witness :
  fst (@grafana_delete_contact_point Scripted.runtime example_self
         (with_state "absent" example_params)
         (Scripted.start [Scripted.reply 404 NoReader]))
  = Ok {[ "changed" := JBool false ]}.
Proof.
  refine (proj1 (proj2 (proj2 (@delete_outcome Scripted.runtime example_self
            (with_state "absent" example_params)
            (Scripted.start [Scripted.reply 404 NoReader]) _ _ eq_refl)))
          eq_refl).
Defined.

(** Status 500 on the listing and on the POST. *)
Lemma unexpected_status_is_fatal_witness :
  fst (@grafana_check_contact_point_match Scripted.runtime example_self
         example_params (Scripted.start [Scripted.reply 500 NoReader])) =
    Raise (GrafanaAPIException "Unable to get contact point %s : %s"
             [FJson (JStr "email");
              FInfo {| status := 500; msg := ""; body := None |}]) ∧
  fst (@grafana_create_contact_point Scripted.runtime example_self
         example_params example_payload
         (Scripted.start [Scripted.reply 500 NoReader])) =
    Raise (GrafanaAPIException "Unable to create contact point: %s"
             [FInfo {| status := 500; msg := ""; body := None |}]).
Proof.
  destruct (@unexpected_status_is_fatal Scripted.runtime example_self
              example_params example_payload
              (Scripted.start [Scripted.reply 500 NoReader])
              (Scripted.start [Scripted.reply 500 NoReader])
              _ _ _ _ eq_refl ltac:(discriminate) eq_refl ltac:(discriminate))
    as [-> ->].
  split; reflexivity.
Defined.

Lemma update_run_example_result :
  update_run_example =
    (Ok {[ "changed" := JBool true;
           "diff" := JDict {[ "before" := JDict {[ "uid" := JStr "email" ]};
                              "after" := JDict example_payload ]};
           "contact_point" := JDict example_payload ]},
     {| world := ([] : @World Scripted.runtime);
        sent := [list_request example_self example_params;
                 update_request example_self example_params example_payload] |}).
Proof. reflexivity. Qed.

(** C8, counterexample. A Create and a Delete both report
    [changed=true], and neither result has a [diff]. *)
Lemma changed_without_diff :
  (reported create_run_example "changed" = Some (JBool true) ∧
   reported create_run_example "diff" = None ∧
   methods create_run_example = ["GET"; "POST"]) ∧
  (reported delete_run_example "changed" = Some (JBool true) ∧
   reported delete_run_example "diff" = None ∧
   methods delete_run_example = ["GET"; "DELETE"]).
Proof.
  repeat split; reflexivity.
Qed.

(** An Update that changes the entry. *)
Lemma diff_on_update_only_witness :
  ∃ before,
    reported update_run_example "diff" =
      Some (JDict {[ "before" := before; "after" := JDict example_payload ]}).
Proof.
  destruct (@diff_on_update_only Scripted.runtime example_self example_params
              (Scripted.start
                 [Scripted.reply 200
                    (JsonText (JList [JDict {[ "uid" := JStr "email" ]}]));
                  Scripted.reply 202 (JsonText (JDict example_payload))])
              _ _ update_run_example_result ltac:(by lookup_here))
    as (payload & rq & Hp & Hl & Hcase).
  assert (payload = example_payload) as ->.
  { pose proof example_payload_ok as Hp'. congruence. }
  destruct Hcase as [[_ [before Hd]]|[[Hrq _]|[Hrq _]]].
  - exists before. unfold reported. by rewrite update_run_example_result.
  - simpl in Hl. by simplify_eq.
  - simpl in Hl. by simplify_eq.
Defined.

(** Absent, and nothing to delete. *)
Lemma unchanged_result_is_bare_witness :
  fst noop_run_example = Ok {[ "changed" := JBool false ]}.
Proof.
  assert (noop_run_example =
            (Ok {[ "changed" := JBool false ]},
             {| world := ([] : @World Scripted.runtime);
                sent := [list_request example_self
                           (with_state "absent" example_params)] |})) as Hrun.
  { reflexivity. }
  destruct (@unchanged_result_is_bare Scripted.runtime example_self
              (with_state "absent" example_params) _ _ _ Hrun eq_refl)
    as [_ _].
  by rewrite Hrun.
Defined.

Lemma payload_has_uid data payload :
  grafana_contact_point_payload data = Ok payload →
  payload !! "uid" = Some (of_opt_str (params.uid data)).
Proof.
  unfold grafana_contact_point_payload, grafana_contact_point_payload_email.
  destruct (py_eq _ _).
  - destruct (params.email_addresses data); [|done].
    lookup_here. intros [= <-]. by lookup_here.
  - intros [= <-]. by lookup_here.
Qed.

(** Against a store that keeps payloads as sent and answers a PUT with
    the entry it holds, a second run with state present changes nothing. *)
Lemma rerun_faithful_unchanged b self data u entries payload :
  params.url data = b → params.uid data = Some u →
  params.state data = "present" →
  grafana_contact_point_payload data = Ok payload →
  Forall (λ e, is_Some (uid_is (JStr u) e)) entries →
  ∃ r1 s2,
    @reconcile_twice (Store.runtime (Store.faithful b)) self data
      (Store.start (Store.faithful b) entries) =
    (Ok (r1, {[ "changed" := JBool false ]}), s2).
Proof.
  intros Hurl Huid Hst Hp Hwf.
  assert (uid_is (JStr u) (JDict payload) = Some true) as Hkeep.
  { unfold uid_is. simpl. rewrite (payload_has_uid data) by done.
    rewrite Huid. simpl. by rewrite bool_decide_eq_true_2. }
  pose proof (store_run_create (Store.faithful b) self data u Hurl Huid
                entries [] payload Hst Hp Hwf) as Hcreate.
  unfold reconcile_twice, Store.start.
  destruct (existsb (is_match u) entries) eqn:Hex.
  - destruct (next_default_match (JStr u) entries Hwf)
      as (before & _ & _ & Hn & Hb); [by apply existsb_is_match|].
    rewrite (store_run_update (Store.faithful b) self data u Hurl Huid
               _ _ payload before) by done.
    rewrite (store_run_update (Store.faithful b) self data u Hurl Huid
               _ _ payload (JDict payload));
      [|done|done|by apply existsb_after_update
       |by apply next_after_update|by eapply uid_is_truthy].
    cbn [Store.faithful Store.reply_put Store.normalise id].
    rewrite py_eq_refl. eauto.
  - rewrite Hcreate by done.
    rewrite (store_run_update (Store.faithful b) self data u Hurl Huid
               _ _ payload (JDict payload));
      [|done|done|by apply existsb_after_create
       |by apply next_after_create; [apply no_match_when_absent|]
       |by eapply uid_is_truthy].
    cbn [Store.faithful Store.reply_put Store.normalise id].
    rewrite py_eq_refl. eauto.
Qed.

(** C9, counterexample. The store answers a PUT with a confirmation
    message: the first run creates the contact point, the second run
    updates it and reports [changed=true] again. *)
Lemma rerun_after_create_changes_again :
  let twice :=
    @reconcile_twice (Store.runtime (Store.terse "http://grafana"))
      example_self example_params
      (Store.start (Store.terse "http://grafana") []) in
  fst twice =
    Ok ({[ "changed" := JBool true;
           "state" := JStr "present";
           "contact_point" := JDict example_payload ]},
        {[ "changed" := JBool true;
           "diff" := JDict {[ "before" := JDict example_payload;
                              "after" := JDict example_payload ]};
           "contact_point" :=
             JDict {[ "message" := JStr "contact point updated" ]} ]}) ∧
  req_method <$> sent (snd twice) = ["GET"; "POST"; "GET"; "PUT"].
Proof. split; reflexivity. Qed.

(** Deleting the listed entry and running again; creating the contact
    point and running again against a store that echoes what it holds. *)
Lemma rerun_against_store_witness :
  (∃ r1 s2,
     @reconcile_twice (Store.runtime (Store.faithful "http://grafana"))
       example_self (with_state "absent" example_params)
       (Store.start (Store.faithful "http://grafana")
          [other_entry; JDict example_payload]) =
     (Ok (r1, {[ "changed" := JBool false ]}), s2)) ∧
  (∃ r1 s2,
     @reconcile_twice (Store.runtime (Store.faithful "http://grafana"))
       example_self example_params
       (Store.start (Store.faithful "http://grafana") [other_entry]) =
     (Ok (r1, {[ "changed" := JBool false ]}), s2)).
Proof.
  split.
  - destruct (proj1 (rerun_against_store (Store.faithful "http://grafana")
                example_self (with_state "absent" example_params) "email"
                eq_refl eq_refl [other_entry; JDict example_payload]
                example_payload example_payload_absent_ok
                ltac:(repeat constructor; by eexists)) eq_refl)
      as (r1 & s2 & Htwice & _).
    by exists r1, s2.
  - destruct (proj2 (rerun_against_store (Store.faithful "http://grafana")
                example_self example_params "email"
                eq_refl eq_refl [other_entry]
                example_payload example_payload_ok
                ltac:(repeat constructor; by eexists)) eq_refl eq_refl)
      as (r1 & r2 & s2 & Htwice & _ & Hr2 & _).
    exists r1, s2. rewrite Htwice, Hr2.
    cbn [Store.faithful Store.reply_put Store.normalise id].
    by rewrite py_eq_refl.
Defined.

(** * Further properties of the module *)

(** ** Session setup *)

Section Session.
Context `{Runtime}.

Lemma switch_run self data org_id (s : st) resp w :
  fetch_url_step (world s) (switch_request self data org_id) = (resp, w) →
  grafana_switch_organisation self data org_id s =
    (if bool_decide (status (resp_info resp) = 200) then Ok tt
     else Raise (GrafanaAPIException
                   "Unable to switch to organization %s : %s"
                   [FJson org_id; FInfo (resp_info resp)]),
     after s (switch_request self data org_id) w).
Proof.
  intros Hf. unfold grafana_switch_organisation, switch_request in *.
  step_run. rewrite Hf. by case_bool_decide.
Qed.

Lemma init_api_key_run p (s : st) :
  truthy (of_opt_str (params.grafana_api_key p)) = true →
  GrafanaContactPointInterface_init p s = (Ok (bearer_iface p), s).
Proof.
  intros Hkey. unfold GrafanaContactPointInterface_init, bearer_iface.
  by rewrite Hkey.
Qed.

Lemma basic_headers_insert p :
  <["Authorization" :=
      basic_auth_header (params.url_username p) (params.url_password p)]>
    ({[ "Content-Type" := "application/json" ]} : gmap string string) =
  basic_headers p.
Proof.
  reflexivity.
Qed.

Lemma init_basic_run p (s : st) resp w :
  truthy (of_opt_str (params.grafana_api_key p)) = false →
  truthy (of_opt_str (params.org_name p)) = false →
  fetch_url_step (world s)
    (switch_request (basic_iface p) p (JInt (params.org_id p))) = (resp, w) →
  GrafanaContactPointInterface_init p s =
    (if bool_decide (status (resp_info resp) = 200) then Ok (basic_iface p)
     else Raise (GrafanaAPIException
                   "Unable to switch to organization %s : %s"
                   [FJson (JInt (params.org_id p)); FInfo (resp_info resp)]),
     after s (switch_request (basic_iface p) p (JInt (params.org_id p))) w).
Proof.
  intros Hkey Hname Hf. unfold GrafanaContactPointInterface_init.
  rewrite Hkey, Hname, basic_headers_insert.
  unfold bind, ret. fold (basic_iface p).
  rewrite (switch_run _ _ _ _ _ _ Hf). by case_bool_decide.
Qed.

Lemma main_run p (s : st) :
  main p s =
    match GrafanaContactPointInterface_init
            (with_url (clean_url (params.url p)) p) s with
    | (Ok grafana_iface, s1) =>
        match grafana_check_contact_point_match grafana_iface
                (with_url (clean_url (params.url p)) p) s1 with
        | (Ok result, s2) =>
            match result !! "failed" with
            | Some _ =>
                (Raise (TypeError "got multiple values for keyword argument"),
                 s2)
            | None => (Ok (<["failed" := JBool false]> result), s2)
            end
        | (Raise e, s2) => (Raise e, s2)
        end
    | (Raise e, s1) => (Raise e, s1)
    end.
Proof.
  unfold main, bind, with_url.
  destruct (GrafanaContactPointInterface_init _ s) as [[iface|e] s1]; [|done].
  destruct (grafana_check_contact_point_match _ _ s1) as [[res|e] s2]; [|done].
  by destruct (res !! "failed").
Qed.

End Session.

(** ** Requests of one reconciliation *)

Section Trace.
Context `{Runtime}.

Lemma handle_payload_raise self data before (s : st) e :
  grafana_contact_point_payload data = Raise e →
  grafana_handle_contact_point self data before s = (Raise e, s).
Proof.
  intros Hp. unfold grafana_handle_contact_point. step_run. by rewrite Hp.
Qed.

(** The requests a reconciliation adds to the log, on every way through
    it, failing ones included. *)
Lemma check_trace self data (s : st) :
  let s' := snd (grafana_check_contact_point_match self data s) in
  sent s' = (sent s ++ [list_request self data])%list ∨
  (params.state data = "present" ∧
   ∃ payload,
     grafana_contact_point_payload data = Ok payload ∧
     (sent s' = (sent s ++ [list_request self data;
                            create_request self data payload])%list ∨
      sent s' = (sent s ++ [list_request self data;
                            update_request self data payload])%list)) ∨
  (params.state data ≠ "present" ∧
   sent s' = (sent s ++ [list_request self data;
                         delete_request self data])%list).
Proof.
  destruct (fetch_url_step (world s) (list_request self data))
    as [resp w] eqn:Hf.
  rewrite (check_run _ _ _ _ _ Hf).
  case_bool_decide; [|by left].
  destruct (json_loads_read (r resp)); [|by left].
  destruct (py_iter _); [|by left].
  destruct (next_default _ _ _) as [before|]; [|by left].
  destruct (grafana_contact_point_payload data) as [payload|e] eqn:Hp;
    [|by rewrite (handle_payload_raise _ _ _ _ e); [left|]].
  rewrite (handle_run _ _ payload) by done.
  set (listed := after s (list_request self data) w).
  case_bool_decide; destruct (truthy before).
  - destruct (fetch_url_step (world listed)
                (update_request self data payload)) as [resp' w'] eqn:Hf'.
    rewrite (update_run _ _ _ _ _ _ _ Hf'). simpl.
    right; left. split; [done|]. exists payload. split; [done|]. right.
    by rewrite <- app_assoc.
  - destruct (fetch_url_step (world listed)
                (create_request self data payload)) as [resp' w'] eqn:Hf'.
    rewrite (create_run _ _ _ _ _ _ Hf'). simpl.
    right; left. split; [done|]. exists payload. split; [done|]. left.
    by rewrite <- app_assoc.
  - destruct (fetch_url_step (world listed)
                (delete_request self data)) as [resp' w'] eqn:Hf'.
    rewrite (delete_run _ _ _ _ _ Hf'). simpl.
    right; right. split; [done|]. by rewrite <- app_assoc.
  - by left.
Qed.

(** X14. Whatever the replies, and whether it returns or raises, a
    reconciliation sends the listing GET first and at most one request
    after it, which is a POST, PUT or DELETE; each request carries the
    headers of the interface object. *)
Theorem reconcile_requests_bounded self data (s : st) :
  ∃ rest,
    sent (snd (grafana_check_contact_point_match self data s)) =
      (sent s ++ list_request self data :: rest)%list ∧
    (length rest ≤ 1)%nat ∧
    Forall (λ rq, req_method rq ∈ ["POST"; "PUT"; "DELETE"]) rest ∧
    Forall (λ rq, req_headers rq = headers self)
      (list_request self data :: rest).
Proof.
  destruct (check_trace self data s)
    as [Hs|[(_ & payload & _ & [Hs|Hs])|[_ Hs]]]; simpl in Hs.
  - exists []. rewrite Hs. repeat split; auto.
  - exists [create_request self data payload]. rewrite Hs.
    repeat split; auto. repeat constructor.
  - exists [update_request self data payload]. rewrite Hs.
    repeat split; auto. repeat constructor.
  - exists [delete_request self data]. rewrite Hs.
    repeat split; auto. repeat constructor.
Qed.

(** X15. The requested state bounds what a reconciliation may send: with
    state present it never sends a DELETE, and with any other state it
    never sends a POST or a PUT. *)
Theorem state_guards_methods self data (s : st) :
  ∃ added,
    sent (snd (grafana_check_contact_point_match self data s)) =
      (sent s ++ added)%list ∧
    Forall (λ rq,
      if bool_decide (params.state data = "present")
      then req_method rq ≠ "DELETE"
      else req_method rq ≠ "POST" ∧ req_method rq ≠ "PUT") added.
Proof.
  destruct (check_trace self data s)
    as [Hs|[(Hst & payload & _ & [Hs|Hs])|[Hst Hs]]]; simpl in Hs;
    eexists; (split; [exact Hs|]);
    case_bool_decide; try done; by repeat constructor.
Qed.

End Trace.

(** ** The listing and the lookup in it *)

Lemma next_default_first want pre cp post :
  Forall (λ x, uid_is want x = Some false) pre →
  uid_is want cp = Some true →
  next_default "uid" want (pre ++ cp :: post) = Ok cp.
Proof.
  unfold next_default, uid_is. intros Hpre Hcp.
  induction Hpre as [|x pre Hx _ IH]; simpl.
  - destruct (py_getitem cp "uid"); [|done].
    injection Hcp as Hcp. by rewrite Hcp.
  - destruct (py_getitem x "uid"); [|done].
    injection Hx as Hx. by rewrite Hx.
Qed.

Lemma next_default_raises want pre cp post e :
  Forall (λ x, uid_is want x = Some false) pre →
  py_getitem cp "uid" = Raise e →
  next_default "uid" want (pre ++ cp :: post) = Raise e.
Proof.
  unfold next_default, uid_is. intros Hpre Hcp.
  induction Hpre as [|x pre Hx _ IH]; simpl.
  - by rewrite Hcp.
  - destruct (py_getitem x "uid"); [|done].
    injection Hx as Hx. by rewrite Hx.
Qed.

Section Listing.
Context `{Runtime}.

(** X11. The lookup stops at the first listed entry whose [uid] equals
    the requested one: that entry is the snapshot of the Update (state
    present) or the reason for the Delete (any other state), and what is
    listed after it is not inspected. *)
Theorem first_match_wins self data payload pre cp post (s : st) resp w :
  fetch_url_step (world s) (list_request self data) = (resp, w) →
  status (resp_info resp) = 200 →
  r resp = JsonText (JList (pre ++ cp :: post)) →
  grafana_contact_point_payload data = Ok payload →
  Forall (λ x, uid_is (of_opt_str (params.uid data)) x = Some false) pre →
  uid_is (of_opt_str (params.uid data)) cp = Some true →
  grafana_check_contact_point_match self data s =
    if bool_decide (params.state data = "present")
    then grafana_update_contact_point self data payload cp
           (after s (list_request self data) w)
    else grafana_delete_contact_point self data
           (after s (list_request self data) w).
Proof.
  intros Hf H200 Hr Hp Hpre Hcp.
  rewrite (check_run _ _ _ _ _ Hf), bool_decide_eq_true_2, Hr by done.
  simpl. rewrite next_default_first by done.
  rewrite (handle_run _ _ payload) by done.
  by rewrite (uid_is_truthy _ _ _ Hcp).
Qed.

(** X9. A listed entry without a readable [uid], met before any match,
    ends the run with the error of the subscript ([KeyError] for a
    dictionary that lacks the key) after the GET alone. *)
Theorem listing_entry_without_uid self data pre cp post (s : st) resp w e :
  fetch_url_step (world s) (list_request self data) = (resp, w) →
  status (resp_info resp) = 200 →
  r resp = JsonText (JList (pre ++ cp :: post)) →
  Forall (λ x, uid_is (of_opt_str (params.uid data)) x = Some false) pre →
  py_getitem cp "uid" = Raise e →
  grafana_check_contact_point_match self data s =
    (Raise e,
     {| world := w; sent := (sent s ++ [list_request self data])%list |}) ∧
  (∀ m, cp = JDict m → e = KeyError "uid").
Proof.
  intros Hf H200 Hr Hpre Hcp. split.
  - rewrite (check_run _ _ _ _ _ Hf), bool_decide_eq_true_2, Hr by done.
    simpl. by rewrite (next_default_raises _ _ _ _ e).
  - intros m ->. simpl in Hcp. destruct (m !! "uid"); by simplify_eq.
Qed.

(** X10. A listing that decodes to something other than a list (null, a
    number, a boolean, a non-empty object or string) ends the run with a
    [TypeError] after the GET alone. *)
Theorem listing_must_be_list self data j (s : st) resp w :
  fetch_url_step (world s) (list_request self data) = (resp, w) →
  status (resp_info resp) = 200 →
  r resp = JsonText j →
  not_a_listing j = true →
  ∃ what,
    grafana_check_contact_point_match self data s =
      (Raise (TypeError what),
       {| world := w; sent := (sent s ++ [list_request self data])%list |}).
Proof.
  intros Hf H200 Hr Hj.
  rewrite (check_run _ _ _ _ _ Hf), bool_decide_eq_true_2, Hr by done.
  simpl. destruct j as [| | |str|l|m]; simpl in *; try discriminate;
    try (eexists; reflexivity).
  - destruct str as [|c str]; [done|]. simpl. eexists; reflexivity.
  - destruct (map_to_list m) as [|[k v] l] eqn:Hm.
    + apply map_to_list_empty_iff in Hm. subst.
      by rewrite bool_decide_eq_true_2 in Hj.
    + simpl. eexists; reflexivity.
Qed.

(** X12. A Create sends one POST of the payload to the collection
    endpoint.  Status 202 with a body that decodes gives [changed=true]
    with the requested state and the decoded body as [contact_point];
    status 202 with a body that does not decode raises, the POST having
    been sent. *)
Theorem create_outcome self data payload (s : st) resp w :
  fetch_url_step (world s) (create_request self data payload) = (resp, w) →
  status (resp_info resp) = 202 →
  let run := grafana_create_contact_point self data payload s in
  sent (snd run) = (sent s ++ [create_request self data payload])%list ∧
  (∀ contact_point, r resp = JsonText contact_point →
     fst run = Ok {[ "changed" := JBool true;
                     "state" := JStr (params.state data);
                     "contact_point" := contact_point ]}) ∧
  (∀ raw, r resp = OtherText raw → fst run = Raise (JSONDecodeError raw)) ∧
  (r resp = NoReader → ∃ e, fst run = Raise e).
Proof.
  intros Hf H202 run. subst run.
  rewrite (create_run _ _ _ _ _ _ Hf), bool_decide_eq_true_2 by done.
  simpl. split; [done|].
  repeat split; [intros ? ->|intros ? ->|intros ->]; simpl; eauto.
Qed.

(** X13. An Update answered with status 202 and a body equal to the
    snapshot reports [changed=false], whatever payload was sent. *)
Theorem update_unchanged_on_identical_reply
    self data payload before (s : st) resp w :
  fetch_url_step (world s) (update_request self data payload) = (resp, w) →
  status (resp_info resp) = 202 →
  r resp = JsonText before →
  fst (grafana_update_contact_point self data payload before s) =
    Ok {[ "changed" := JBool false ]}.
Proof.
  intros Hf H202 Hr.
  rewrite (update_run _ _ _ _ _ _ _ Hf), bool_decide_eq_true_2, Hr by done.
  simpl. by rewrite py_eq_refl.
Qed.

End Listing.

(** ** The whole run *)

Section Main.
Context `{Runtime}.

Lemma init_cases p (s : st) :
  GrafanaContactPointInterface_init p s = (Ok (bearer_iface p), s) ∨
  (∃ e, GrafanaContactPointInterface_init p s = (Raise e, s)) ∨
  (∃ resp w,
     fetch_url_step (world s)
       (switch_request (basic_iface p) p (JInt (params.org_id p))) = (resp, w) ∧
     GrafanaContactPointInterface_init p s =
       (if bool_decide (status (resp_info resp) = 200) then Ok (basic_iface p)
        else Raise (GrafanaAPIException
                      "Unable to switch to organization %s : %s"
                      [FJson (JInt (params.org_id p)); FInfo (resp_info resp)]),
        after s (switch_request (basic_iface p) p (JInt (params.org_id p))) w)).
Proof.
  destruct (truthy (of_opt_str (params.grafana_api_key p))) eqn:Hkey.
  { left. by apply init_api_key_run. }
  right. destruct (truthy (of_opt_str (params.org_name p))) eqn:Hname.
  - left. eexists. unfold GrafanaContactPointInterface_init.
    rewrite Hkey, Hname.
    by unfold call_grafana_organization_by_name, bind_positional, bind, raise.
  - right.
    destruct (fetch_url_step (world s)
                (switch_request (basic_iface p) p (JInt (params.org_id p))))
      as [resp w] eqn:Hf.
    exists resp, w. split; [done|]. by apply init_basic_run.
Qed.

Lemma check_result_keys self data (s : st) res s' :
  grafana_check_contact_point_match self data s = (Ok res, s') →
  res !! "failed" = None ∧
  (∃ b, res !! "changed" = Some (JBool b)) ∧
  (∀ k, is_Some (res !! k) →
     k ∈ ["changed"; "state"; "contact_point"; "diff"]).
Proof.
  intros Hrun.
  destruct (check_ok_cases _ _ _ _ _ Hrun) as (payload & before & Hp & Hcase).
  destruct Hcase as [[-> Hl]|[(cp & -> & Hl)|[[-> Hl]|[(cp & -> & Hl)|
                     [[-> Hl]|[-> Hl]]]]]].
  all: split; [by lookup_here|].
  all: split; [eexists; by lookup_here|].
  all: intros k; rewrite <- elem_of_dom, ?dom_insert_L, dom_singleton_L.
  all: rewrite ?elem_of_union, !elem_of_singleton, !elem_of_cons; tauto.
Qed.

Lemma check_added self data (s : st) :
  ∃ added,
    sent (snd (grafana_check_contact_point_match self data s)) =
      (sent s ++ added)%list ∧
    (length added ≤ 2)%nat ∧
    Forall (λ rq, req_headers rq = headers self) added.
Proof.
  destruct (check_trace self data s)
    as [Hs|[(_ & payload & _ & [Hs|Hs])|[_ Hs]]]; simpl in Hs;
    eexists; (split; [exact Hs|]); split; simpl; try lia;
    by repeat constructor.
Qed.

Lemma authenticated_bearer p rq :
  req_headers rq = headers (bearer_iface p) → authenticated rq.
Proof.
  intros Hrq. unfold authenticated. rewrite Hrq.
  split; [reflexivity | eexists; reflexivity].
Qed.

Lemma authenticated_basic p rq :
  req_headers rq = headers (basic_iface p) → authenticated rq.
Proof.
  intros Hrq. unfold authenticated. rewrite Hrq.
  split; [reflexivity | eexists; reflexivity].
Qed.

Lemma main_sent p (s : st) iface s1 :
  GrafanaContactPointInterface_init
    (with_url (clean_url (params.url p)) p) s = (Ok iface, s1) →
  sent (snd (main p s)) =
    sent (snd (grafana_check_contact_point_match iface
                 (with_url (clean_url (params.url p)) p) s1)).
Proof.
  intros Hinit. rewrite main_run, Hinit.
  destruct (grafana_check_contact_point_match _ _ s1) as [[res|e] s2];
    [|done].
  by destruct (res !! "failed").
Qed.

(** X2. With an API key, [main] is the reconciliation alone, run with
    the Bearer header on the cleaned URL: no organization request is
    sent, [org_id] and [org_name] play no part, and a result is handed
    on with [failed=False] added. *)
Theorem main_with_api_key p (s : st) :
  truthy (of_opt_str (params.grafana_api_key p)) = true →
  main p s =
    match grafana_check_contact_point_match
            (bearer_iface p) (with_url (clean_url (params.url p)) p) s with
    | (Ok result, s') => (Ok (<["failed" := JBool false]> result), s')
    | (Raise e, s') => (Raise e, s')
    end.
Proof.
  intros Hkey. rewrite main_run.
  rewrite (init_api_key_run (with_url (clean_url (params.url p)) p)) by done.
  change (bearer_iface (with_url (clean_url (params.url p)) p))
    with (bearer_iface p).
  destruct (grafana_check_contact_point_match _ _ s) as [[res|e] s'] eqn:Hrun;
    [|done].
  by destruct (check_result_keys _ _ _ _ _ Hrun) as [-> _].
Qed.

(** X3. With basic authentication and no organization name, a switch to
    [org_id] that is not answered with status 200 ends [main] with
    [GrafanaAPIException]: the POST of the switch is the only request
    sent, and no contact point is listed or changed. *)
Theorem main_aborts_on_switch_failure p (s : st) resp w :
  truthy (of_opt_str (params.grafana_api_key p)) = false →
  truthy (of_opt_str (params.org_name p)) = false →
  let p' := with_url (clean_url (params.url p)) p in
  let switch := switch_request (basic_iface p') p' (JInt (params.org_id p)) in
  fetch_url_step (world s) switch = (resp, w) →
  status (resp_info resp) ≠ 200 →
  main p s =
    (Raise (GrafanaAPIException "Unable to switch to organization %s : %s"
              [FJson (JInt (params.org_id p)); FInfo (resp_info resp)]),
     {| world := w; sent := (sent s ++ [switch])%list |}).
Proof.
  intros Hkey Hname p' switch Hf Hst.
  pose proof (init_basic_run p' s resp w Hkey Hname Hf) as Hinit.
  rewrite main_run. fold p'. rewrite Hinit.
  by rewrite bool_decide_eq_false_2.
Qed.

(** X4. What [main] hands to [exit_json] always has [failed=False] and
    a boolean [changed], and no key beyond [state], [contact_point] and
    [diff]. *)
Theorem main_output_contract p (s : st) out s' :
  main p s = (Ok out, s') →
  out !! "failed" = Some (JBool false) ∧
  (∃ b, out !! "changed" = Some (JBool b)) ∧
  (∀ k, is_Some (out !! k) →
     k ∈ ["failed"; "changed"; "state"; "contact_point"; "diff"]).
Proof.
  rewrite main_run.
  destruct (GrafanaContactPointInterface_init _ s) as [[iface|e] s1]; [|done].
  destruct (grafana_check_contact_point_match _ _ s1) as [[res|e] s2] eqn:Hrun;
    [|done].
  destruct (check_result_keys _ _ _ _ _ Hrun) as (Hfailed & [b Hb] & Hkeys).
  rewrite Hfailed. intros [= <- <-].
  split; [by rewrite lookup_insert_eq|].
  split; [exists b; by rewrite lookup_insert_ne|].
  intros k. rewrite lookup_insert. case_decide as Hk.
  - intros _. subst. by left.
  - intros Hin. right. by apply Hkeys.
Qed.

(** X5. Every request [main] sends carries the JSON content type and an
    [Authorization] header, and there are at most three of them. *)
Theorem main_requests_authenticated p (s : st) :
  ∃ added,
    sent (snd (main p s)) = (sent s ++ added)%list ∧
    (length added ≤ 3)%nat ∧
    Forall authenticated added.
Proof.
  set (p' := with_url (clean_url (params.url p)) p).
  assert (∀ iface s1 pre,
    GrafanaContactPointInterface_init p' s = (Ok iface, s1) →
    sent s1 = (sent s ++ pre)%list → (length pre ≤ 1)%nat →
    Forall authenticated pre →
    (∀ rq, req_headers rq = headers iface → authenticated rq) →
    ∃ added, sent (snd (main p s)) = (sent s ++ added)%list ∧
             (length added ≤ 3)%nat ∧ Forall authenticated added) as Hgo.
  { intros iface s1 pre Hinit Hs1 Hlen Hpre Hauth.
    rewrite (main_sent _ _ _ _ Hinit). fold p'.
    destruct (check_added iface p' s1) as (added & -> & Hla & Hadded).
    exists (pre ++ added)%list. rewrite Hs1, app_assoc.
    split; [done|]. split; [rewrite length_app; lia|].
    apply Forall_app. split; [done|].
    eapply Forall_impl; [exact Hadded|]. done. }
  destruct (init_cases p' s) as [Hinit|[[e Hinit]|(resp & w & Hf & Hinit)]].
  - apply (Hgo _ _ [] Hinit); [by rewrite app_nil_r|simpl; lia|done|].
    apply authenticated_bearer.
  - exists []. rewrite main_run. fold p'. rewrite Hinit, app_nil_r.
    split; [done|]. split; [simpl; lia|constructor].
  - assert (authenticated
              (switch_request (basic_iface p') p' (JInt (params.org_id p'))))
      as Hsw by by apply (authenticated_basic p').
    case_bool_decide.
    + apply (Hgo _ _ [switch_request (basic_iface p') p'
                        (JInt (params.org_id p'))] Hinit);
        [done|simpl; lia|by repeat constructor|].
      apply authenticated_basic.
    + exists [switch_request (basic_iface p') p' (JInt (params.org_id p'))].
      rewrite main_run. fold p'. rewrite Hinit.
      split; [done|]. split; [simpl; lia|]. by repeat constructor.
Qed.

End Main.

(** ** Organization requests and the payload, edge cases *)

Section Edges.
Context `{Runtime}.

(** X1. Switching the organization sends one POST, without a body, to
    [/api/user/using/] followed by the organization id (in decimal for a
    number); status 200 returns normally, any other status raises
    [GrafanaAPIException] with the id and the reply's [info]. *)
Theorem switch_outcome self data (org : Z) (s : st) resp w :
  let rq := {| req_method := "POST";
               req_url := params.url data ++ "/api/user/using/" ++ pretty org;
               req_headers := headers self;
               req_data := None |} in
  fetch_url_step (world s) rq = (resp, w) →
  grafana_switch_organisation self data (JInt org) s =
    (if bool_decide (status (resp_info resp) = 200) then Ok tt
     else Raise (GrafanaAPIException
                   "Unable to switch to organization %s : %s"
                   [FJson (JInt org); FInfo (resp_info resp)]),
     {| world := w; sent := (sent s ++ [rq])%list |}).
Proof.
  intros rq Hf. exact (switch_run self data (JInt org) s resp w Hf).
Qed.

(** X7. The organization lookup never consults the status of the reply:
    two replies with the same body give the same outcome, so an error
    status is not reported as such. *)
Theorem organization_lookup_ignores_status self data org_name
    (s1 s2 : st) resp1 w1 resp2 w2 :
  fetch_url_step (world s1) (orgs_request self data) = (resp1, w1) →
  fetch_url_step (world s2) (orgs_request self data) = (resp2, w2) →
  r resp1 = r resp2 →
  fst (grafana_organization_by_name self data org_name s1) =
  fst (grafana_organization_by_name self data org_name s2).
Proof.
  intros Hf1 Hf2 Hr.
  rewrite (organization_by_name_run _ _ _ _ _ _ Hf1),
    (organization_by_name_run _ _ _ _ _ _ Hf2).
  simpl. by rewrite Hr.
Qed.

End Edges.

(** X8. The payload builder fails in one case only: type [email] with no
    address list, where the join raises [TypeError].  An empty address
    list builds, as does every other type. *)
Theorem payload_fails_iff data :
  (∃ e, grafana_contact_point_payload data = Raise e) ↔
  (params.type data = Some "email" ∧ params.email_addresses data = None).
Proof.
  split.
  - intros [e He].
    destruct (decide (params.type data = Some "email")) as [Ht|Ht].
    + split; [done|].
      destruct (params.email_addresses data) as [addresses|] eqn:Ha; [|done].
      by rewrite (payload_email_shape _ addresses) in He.
    + by rewrite payload_other_shape in He.
  - intros [Ht Ha]. eexists.
    unfold grafana_contact_point_payload, grafana_contact_point_payload_email.
    by rewrite Ht, Ha.
Qed.

(** ** Convergence against a store *)

Lemma filter_replace_matches u np (entries : list json) :
  is_match u np = true →
  filter (λ e, is_match u e = false)
    ((λ e, if is_match u e then np else e) <$> entries) =
  filter (λ e, is_match u e = false) entries.
Proof.
  intros Hnp. induction entries as [|x entries IH]; [done|].
  rewrite fmap_cons, !filter_cons. destruct (is_match u x) eqn:Hx.
  - rewrite Hnp. by repeat case_decide.
  - rewrite Hx. repeat case_decide; try done. by rewrite IH.
Qed.

Lemma filter_no_match_idemp u (entries : list json) :
  filter (λ e, is_match u e = false)
    (filter (λ e, is_match u e = false) entries) =
  filter (λ e, is_match u e = false) entries ∧
  existsb (is_match u) (filter (λ e, is_match u e = false) entries) = false.
Proof.
  induction entries as [|x entries [IH1 IH2]]; [done|].
  rewrite filter_cons. case_decide as Hx; [|done].
  rewrite filter_cons, decide_True by done. simpl.
  by rewrite IH1, IH2, Hx.
Qed.

(** X16. One run against a store whose entries all carry a [uid] always
    returns a result.  Afterwards the store holds an entry with the
    requested [uid] exactly when the state was present (the store keeping
    the [uid] of what it is sent), and the entries with any other [uid]
    are the same as before, in the same order. *)
Theorem store_converges pol self data u entries payload :
  params.url data = Store.base pol →
  params.uid data = Some u →
  grafana_contact_point_payload data = Ok payload →
  Forall (λ e, is_Some (uid_is (JStr u) e)) entries →
  (params.state data = "present" →
   uid_is (JStr u) (Store.normalise pol (JDict payload)) = Some true) →
  let run :=
    @grafana_check_contact_point_match (Store.runtime pol) self data
      (Store.start pol entries) in
  let entries' : list json := world (snd run) in
  (∃ res, fst run = Ok res) ∧
  existsb (is_match u) entries' =
    bool_decide (params.state data = "present") ∧
  filter (λ e, is_match u e = false) entries' =
    filter (λ e, is_match u e = false) entries.
Proof.
  intros Hurl Huid Hp Hwf Hkeep run entries'. subst entries' run.
  unfold Store.start. case_bool_decide as Hst.
  - specialize (Hkeep Hst).
    assert (is_match u (Store.normalise pol (JDict payload)) = true) as Hnp
      by by apply bool_decide_eq_true.
    destruct (existsb (is_match u) entries) eqn:Hex.
    + destruct (next_default_match (JStr u) entries Hwf)
        as (b & _ & _ & Hn & Hb); [by apply existsb_is_match|].
      rewrite (store_run_update pol self data u Hurl Huid _ _ payload b)
        by done.
      simpl. split; [by eexists|].
      split; [by apply existsb_after_update|by apply filter_replace_matches].
    + rewrite (store_run_create pol self data u Hurl Huid _ _ payload)
        by done.
      simpl. split; [by eexists|].
      split; [by apply existsb_after_create|].
      rewrite filter_app, filter_cons, decide_False, filter_nil, app_nil_r;
        [done|by rewrite Hnp].
  - rewrite (store_run_absent pol self data u Hurl Huid _ _ payload) by done.
    destruct (existsb (is_match u) entries) eqn:Hex; simpl.
    + split; [by eexists|]. destruct (filter_no_match_idemp u entries).
      by split.
    + split; [by eexists|]. by split.
Qed.

(** ** The further statements at concrete inputs *)

Lemma switch_outcome_witness :
  @grafana_switch_organisation Scripted.runtime example_self example_params
    (JInt 2) (Scripted.start [Scripted.reply 401 NoReader]) =
  (Raise (GrafanaAPIException "Unable to switch to organization %s : %s"
            [FJson (JInt 2);
             FInfo {| status := 401; msg := ""; body := None |}]),
   {| world := ([] : @World Scripted.runtime);
      sent := [{| req_method := "POST";
                  req_url := "http://grafana/api/user/using/2";
                  req_headers := headers example_self;
                  req_data := None |}] |}).
Proof.
  exact (@switch_outcome Scripted.runtime example_self example_params 2
           (Scripted.start [Scripted.reply 401 NoReader]) _ _ eq_refl).
Defined.

Lemma main_with_api_key_witness :
  methods (@main Scripted.runtime api_key_params
             (Scripted.start
                [Scripted.reply 200 (JsonText (JList [other_entry]));
                 Scripted.reply 202 (JsonText (JDict example_payload))])) =
  ["GET"; "POST"].
Proof.
  unfold methods.
  rewrite (@main_with_api_key Scripted.runtime api_key_params
             (Scripted.start
                [Scripted.reply 200 (JsonText (JList [other_entry]));
                 Scripted.reply 202 (JsonText (JDict example_payload))])
             eq_refl).
  reflexivity.
Defined.

Lemma main_aborts_on_switch_failure_witness :
  methods (@main Scripted.runtime example_params
             (Scripted.start [Scripted.reply 401 NoReader])) = ["POST"].
Proof.
  unfold methods.
  rewrite (@main_aborts_on_switch_failure Scripted.runtime example_params
             (Scripted.start [Scripted.reply 401 NoReader]) _ _
             eq_refl eq_refl eq_refl ltac:(discriminate)).
  reflexivity.
Defined.

Lemma main_output_contract_witness :
  reported main_run_example "failed" = Some (JBool false) ∧
  reported main_run_example "changed" = Some (JBool true).
Proof.
  assert (main_run_example =
            (Ok (<["failed" := JBool false]>
                   ({[ "changed" := JBool true;
                       "state" := JStr "present";
                       "contact_point" := JDict example_payload ]} : dict)),
             snd main_run_example)) as Hrun by reflexivity.
  destruct (@main_output_contract Scripted.runtime _ _ _ _ Hrun)
    as (Hfailed & _ & _).
  unfold reported. rewrite Hrun. simpl. split; [exact Hfailed|reflexivity].
Defined.

Lemma organization_by_name_found_witness :
  @grafana_organization_by_name Scripted.runtime example_self example_params
    "Main Org."
    (Scripted.start
       [Scripted.reply 200
          (JsonText (JList [JDict {[ "orgId" := JInt 7;
                                     "name" := JStr "Other" ]};
                            main_org]))]) =
  (Ok (JInt 1),
   {| world := ([] : @World Scripted.runtime);
      sent := [orgs_request example_self example_params] |}).
Proof.
  apply (@organization_by_name_found Scripted.runtime example_self
           example_params "Main Org."
           (Scripted.start
              [Scripted.reply 200
                 (JsonText (JList [JDict {[ "orgId" := JInt 7;
                                            "name" := JStr "Other" ]};
                                   main_org]))]) _ _
           [JDict {[ "orgId" := JInt 7; "name" := JStr "Other" ]}]
           {[ "orgId" := JInt 1; "name" := JStr "Main Org." ]} []
           (JInt 1) eq_refl eq_refl);
    [repeat constructor | reflexivity | reflexivity].
Defined.

Lemma organization_lookup_ignores_status_witness :
  fst (@grafana_organization_by_name Scripted.runtime example_self
         example_params "Main Org."
         (Scripted.start [Scripted.reply 500 (JsonText (JList [main_org]))])) =
  fst (@grafana_organization_by_name Scripted.runtime example_self
         example_params "Main Org."
         (Scripted.start [Scripted.reply 200 (JsonText (JList [main_org]))])).
Proof.
  exact (@organization_lookup_ignores_status Scripted.runtime example_self
           example_params "Main Org."
           (Scripted.start [Scripted.reply 500 (JsonText (JList [main_org]))])
           (Scripted.start [Scripted.reply 200 (JsonText (JList [main_org]))])
           _ _ _ _ eq_refl eq_refl eq_refl).
Defined.

(** The matching entry is listed second; the entry after it has no [uid]. *)
Lemma first_match_wins_witness :
  @grafana_check_contact_point_match Scripted.runtime example_self
    example_params
    (Scripted.start
       [Scripted.reply 200
          (JsonText (JList [other_entry; JDict {[ "uid" := JStr "email" ]};
                            nameless_entry]));
        Scripted.reply 202 (JsonText (JDict example_payload))]) =
  @grafana_update_contact_point Scripted.runtime example_self example_params
    example_payload (JDict {[ "uid" := JStr "email" ]})
    {| world := ([Scripted.reply 202 (JsonText (JDict example_payload))]
                 : @World Scripted.runtime);
       sent := [list_request example_self example_params] |}.
Proof.
  exact (@first_match_wins Scripted.runtime example_self example_params
           example_payload [other_entry] (JDict {[ "uid" := JStr "email" ]})
           [nameless_entry]
           (Scripted.start
              [Scripted.reply 200
                 (JsonText (JList [other_entry;
                                   JDict {[ "uid" := JStr "email" ]};
                                   nameless_entry]));
               Scripted.reply 202 (JsonText (JDict example_payload))])
           _ _ eq_refl eq_refl eq_refl example_payload_ok
           ltac:(repeat constructor) eq_refl).
Defined.

(** The entry without [uid] is listed before the matching one. *)
Lemma listing_entry_without_uid_witness :
  @grafana_check_contact_point_match Scripted.runtime example_self
    example_params
    (Scripted.start
       [Scripted.reply 200
          (JsonText (JList [other_entry; nameless_entry;
                            JDict example_payload]))]) =
  (Raise (KeyError "uid"),
   {| world := ([] : @World Scripted.runtime);
      sent := [list_request example_self example_params] |}).
Proof.
  exact (proj1 (@listing_entry_without_uid Scripted.runtime example_self
           example_params [other_entry] nameless_entry [JDict example_payload]
           (Scripted.start
              [Scripted.reply 200
                 (JsonText (JList [other_entry; nameless_entry;
                                   JDict example_payload]))])
           _ _ (KeyError "uid") eq_refl eq_refl eq_refl
           ltac:(repeat constructor) eq_refl)).
Defined.

(** The listing is answered with [null]. *)
Lemma listing_must_be_list_witness :
  ∃ what,
    @grafana_check_contact_point_match Scripted.runtime example_self
      example_params (Scripted.start [Scripted.reply 200 (JsonText JNull)]) =
    (Raise (TypeError what),
     {| world := ([] : @World Scripted.runtime);
        sent := [list_request example_self example_params] |}).
Proof.
  exact (@listing_must_be_list Scripted.runtime example_self example_params
           JNull (Scripted.start [Scripted.reply 200 (JsonText JNull)])
           _ _ eq_refl eq_refl eq_refl eq_refl).
Defined.

(** The POST is accepted, and answered with a page that is not JSON. *)
Lemma create_outcome_witness :
  fst (@grafana_create_contact_point Scripted.runtime example_self
         example_params example_payload
         (Scripted.start [Scripted.reply 202 (OtherText "<html>")])) =
  Raise (JSONDecodeError "<html>").
Proof.
  exact (proj1 (proj2 (proj2 (@create_outcome Scripted.runtime example_self
           example_params example_payload
           (Scripted.start [Scripted.reply 202 (OtherText "<html>")])
           _ _ eq_refl eq_refl))) "<html>" eq_refl).
Defined.

(** The remote answers the PUT with the entry it listed, unchanged. *)
Lemma update_unchanged_on_identical_reply_witness :
  fst (@grafana_update_contact_point Scripted.runtime example_self
         example_params example_payload other_entry
         (Scripted.start [Scripted.reply 202 (JsonText other_entry)])) =
  Ok {[ "changed" := JBool false ]}.
Proof.
  exact (@update_unchanged_on_identical_reply Scripted.runtime example_self
           example_params example_payload other_entry
           (Scripted.start [Scripted.reply 202 (JsonText other_entry)])
           _ _ eq_refl eq_refl eq_refl).
Defined.

(** Deleting [email] from a store that also holds another entry. *)
Lemma store_converges_witness :
  let entries' : list json :=
    world (snd (@grafana_check_contact_point_match
                  (Store.runtime (Store.faithful "http://grafana"))
                  example_self (with_state "absent" example_params)
                  (Store.start (Store.faithful "http://grafana")
                     [other_entry; JDict example_payload]))) in
  existsb (is_match "email") entries' = false ∧
  filter (λ e, is_match "email" e = false) entries' = [other_entry].
Proof.
  destruct (store_converges (Store.faithful "http://grafana") example_self
              (with_state "absent" example_params) "email"
              [other_entry; JDict example_payload] example_payload
              eq_refl eq_refl example_payload_absent_ok
              ltac:(repeat constructor; by eexists)
              ltac:(discriminate))
    as (_ & Hex & Hrest).
  split; [exact Hex|exact Hrest].
Defined.

(** ** Present, then absent *)

Lemma wf_after_update u np (entries : list json) :
  Forall (λ e, is_Some (uid_is (JStr u) e)) entries →
  is_Some (uid_is (JStr u) np) →
  Forall (λ e, is_Some (uid_is (JStr u) e))
    ((λ e, if is_match u e then np else e) <$> entries).
Proof.
  intros Hwf Hnp. apply Forall_fmap. eapply Forall_impl; [exact Hwf|].
  intros e He. simpl. by destruct (is_match u e).
Qed.

(** X17. Asking for a contact point and then for its absence, against a
    store that keeps the [uid] of what it is sent: the second run is a
    Delete that reports [changed=true], and the store ends with exactly
    its entries of other [uid]s. *)
Theorem present_then_absent pol self data u entries payload :
  params.url data = Store.base pol →
  params.uid data = Some u →
  params.state data = "present" →
  grafana_contact_point_payload data = Ok payload →
  Forall (λ e, is_Some (uid_is (JStr u) e)) entries →
  uid_is (JStr u) (Store.normalise pol (JDict payload)) = Some true →
  ∃ r1 s2,
    @reconcile_then (Store.runtime pol) self data (with_state "absent" data)
      (Store.start pol entries) =
    (Ok (r1, {[ "state" := JStr "absent"; "changed" := JBool true ]}), s2) ∧
    (world s2 : list json) = filter (λ e, is_match u e = false) entries ∧
    req_method <$> sent s2 =
      ["GET"; if existsb (is_match u) entries then "PUT" else "POST";
       "GET"; "DELETE"].
Proof.
  intros Hurl Huid Hst Hp Hwf Hkeep.
  assert (is_match u (Store.normalise pol (JDict payload)) = true) as Hnp
    by by apply bool_decide_eq_true.
  assert (params.state (with_state "absent" data) ≠ "present") as Hst'
    by done.
  unfold reconcile_then, Store.start.
  destruct (existsb (is_match u) entries) eqn:Hex.
  - destruct (next_default_match (JStr u) entries Hwf)
      as (b & _ & _ & Hn & Hb); [by apply existsb_is_match|].
    rewrite (store_run_update pol self data u Hurl Huid _ _ payload b) by done.
    rewrite (store_run_absent pol self (with_state "absent" data) u Hurl Huid
               _ _ payload Hst' Hp);
      [|by apply wf_after_update].
    rewrite existsb_after_update by done.
    do 2 eexists. split; [done|]. simpl.
    split; [by apply filter_replace_matches|done].
  - rewrite (store_run_create pol self data u Hurl Huid _ _ payload) by done.
    rewrite (store_run_absent pol self (with_state "absent" data) u Hurl Huid
               _ _ payload Hst' Hp);
      [|by apply Forall_app; split; [|repeat constructor]].
    rewrite existsb_after_create by done.
    do 2 eexists. split; [done|]. simpl. split; [|done].
    rewrite filter_app, filter_cons, decide_False, filter_nil, app_nil_r;
      [done|by rewrite Hnp].
Qed.

(** Creating [email] in a store that holds another entry, then deleting
    it. *)
Lemma present_then_absent_witness :
  ∃ r1 s2,
    @reconcile_then (Store.runtime (Store.faithful "http://grafana"))
      example_self example_params (with_state "absent" example_params)
      (Store.start (Store.faithful "http://grafana") [other_entry]) =
    (Ok (r1, {[ "state" := JStr "absent"; "changed" := JBool true ]}), s2) ∧
    (world s2 : list json) = [other_entry].
Proof.
  destruct (present_then_absent (Store.faithful "http://grafana") example_self
              example_params "email" [other_entry] example_payload
              eq_refl eq_refl eq_refl example_payload_ok
              ltac:(repeat constructor; by eexists) eq_refl)
    as (r1 & s2 & Hrun & Hworld & _).
  exists r1, s2. split; [exact Hrun|exact Hworld].
Defined.
